(** * export-service-go: resolution of the runtime configuration

    A shallow embedding of [config/config.go] (package [config]): the
    structs of the resolved configuration, the accessor [Get] guarded by a
    [sync.Once], and its helpers [getRdsCaPath] and [buildBaseHttpUrl].

    The package reads its inputs through two libraries that are not part of
    the repository: viper (defaults and environment variables) and
    app-common-go's [clowder] package (the platform's injected
    configuration).  Both are modelled below as far as [Get] uses them, each
    in a module of its own, next to the few functions of Go's standard
    library that the code calls.

    [Get] works on package state: the pointer [config], the [sync.Once] and
    the objects it allocates.  The embedding passes that state explicitly,
    in a monad of computations that return or panic, so that a panic leaves
    a state behind as it does in Go.  Integers are in [Z]: the code does no
    arithmetic on them.

    The file has three parts: the embedding, the vocabulary of the
    statements (closed forms of the two stages, sample inputs), and the
    lemmas and theorems. *)

From Stdlib Require Import ZArith Ascii String DecimalString.
From stdpp Require Import base option list strings gmap.

Local Open Scope Z_scope.
Local Open Scope string_scope.
Local Open Scope list_scope.

(** ** Go's standard library, as far as the package calls it *)

(** [unicode/utf8]: a string is a sequence of bytes, read as UTF-8 one
    rune at a time. *)
Module utf8.

Definition byte (c : ascii) : Z := Z.of_N (N_of_ascii c).

Definition RuneError : Z := 0xFFFD.

Definition between (lo hi b : Z) : bool := Z.leb lo b && Z.leb b hi.

(** The continuation bytes carry six bits each. *)
Definition payload (b : Z) : Z := Z.land b 0x3F.

(** [utf8.DecodeRuneInString(s)]: the first rune of [s] and the number of
    bytes of its encoding.  A byte that starts no well-formed encoding (a
    stray continuation byte, an overlong form, a surrogate, a value above
    U+10FFFF, a sequence cut short) is read as [RuneError] of width one;
    the second byte of a sequence is checked against the range that its
    first byte accepts. *)
Definition DecodeRuneInString (s : string) : Z * nat :=
  match s with
  | EmptyString => (RuneError, O)
  | String c0 rest =>
      let b0 := byte c0 in
      if Z.ltb b0 0x80 then (b0, 1%nat)
      else if between 0xC2 0xDF b0 then
        match rest with
        | String c1 _ =>
            let b1 := byte c1 in
            if between 0x80 0xBF b1
            then (Z.lor (Z.shiftl (Z.land b0 0x1F) 6) (payload b1), 2%nat)
            else (RuneError, 1%nat)
        | _ => (RuneError, 1%nat)
        end
      else if between 0xE0 0xEF b0 then
        let lo := if Z.eqb b0 0xE0 then 0xA0 else 0x80 in
        let hi := if Z.eqb b0 0xED then 0x9F else 0xBF in
        match rest with
        | String c1 (String c2 _) =>
            let b1 := byte c1 in
            let b2 := byte c2 in
            if between lo hi b1 && between 0x80 0xBF b2
            then (Z.lor (Z.shiftl (Z.land b0 0x0F) 12)
                    (Z.lor (Z.shiftl (payload b1) 6) (payload b2)), 3%nat)
            else (RuneError, 1%nat)
        | _ => (RuneError, 1%nat)
        end
      else if between 0xF0 0xF4 b0 then
        let lo := if Z.eqb b0 0xF0 then 0x90 else 0x80 in
        let hi := if Z.eqb b0 0xF4 then 0x8F else 0xBF in
        match rest with
        | String c1 (String c2 (String c3 _)) =>
            let b1 := byte c1 in
            let b2 := byte c2 in
            let b3 := byte c3 in
            if between lo hi b1 && between 0x80 0xBF b2 && between 0x80 0xBF b3
            then (Z.lor (Z.shiftl (Z.land b0 0x07) 18)
                    (Z.lor (Z.shiftl (payload b1) 12)
                       (Z.lor (Z.shiftl (payload b2) 6) (payload b3))), 4%nat)
            else (RuneError, 1%nat)
        | _ => (RuneError, 1%nat)
        end
      else (RuneError, 1%nat)
  end.

End utf8.

Module unicode.

(** [unicode.IsSpace]: the runes with Unicode's property White_Space; in
    Latin-1 these are tab, line feed, vertical tab, form feed, carriage
    return, space, U+0085 and U+00A0. *)
Definition IsSpace (r : Z) : bool :=
  if Z.leb r 0xFF
  then utf8.between 0x09 0x0D r || Z.eqb r 0x20 || Z.eqb r 0x85 || Z.eqb r 0xA0
  else Z.eqb r 0x1680 || utf8.between 0x2000 0x200A r || utf8.between 0x2028 0x2029 r
       || Z.eqb r 0x202F || Z.eqb r 0x205F || Z.eqb r 0x3000.

End unicode.

(** Every key and separator of the source is ASCII, so the case mappings
    below work on single bytes and leave bytes above 127 alone. *)
Module strings.

Definition upper_byte (c : ascii) : ascii :=
  let n := nat_of_ascii c in
  if ((97 <=? n) && (n <=? 122))%nat then ascii_of_nat (n - 32) else c.

Definition lower_byte (c : ascii) : ascii :=
  let n := nat_of_ascii c in
  if ((65 <=? n) && (n <=? 90))%nat then ascii_of_nat (n + 32) else c.

Fixpoint map_bytes (f : ascii -> ascii) (s : string) : string :=
  match s with
  | EmptyString => EmptyString
  | String c s' => String (f c) (map_bytes f s')
  end.

Definition ToUpper : string -> string := map_bytes upper_byte.
Definition ToLower : string -> string := map_bytes lower_byte.

Fixpoint HasPrefix (s p : string) : bool :=
  match p, s with
  | EmptyString, _ => true
  | String _ _, EmptyString => false
  | String a p', String b s' => if Ascii.eqb a b then HasPrefix s' p' else false
  end.

(** [split_from sep s skip cur]: [cur] is the piece being read, [skip]
    counts the bytes of a separator that are still to be passed over. *)
Fixpoint split_from (sep s : string) (skip : nat) (cur : string) : list string :=
  match s with
  | EmptyString => [cur]
  | String c s' =>
      match skip with
      | S k => split_from sep s' k cur
      | O =>
          if HasPrefix s sep
          then cur :: split_from sep s' (String.length sep - 1) EmptyString
          else split_from sep s' O (cur +:+ String c EmptyString)
      end
  end.

Fixpoint explode (s : string) : list string :=
  match s with
  | EmptyString => []
  | String c s' => String c EmptyString :: explode s'
  end.

(** [strings.Split(s, sep)]: all pieces of [s] between occurrences of
    [sep]; a string without separator, the empty one included, is one
    piece. *)
Definition Split (s sep : string) : list string :=
  match sep with
  | EmptyString => explode s
  | _ => split_from sep s O EmptyString
  end.

Definition flush (cur : string) (rest : list string) : list string :=
  match cur with
  | EmptyString => rest
  | _ => cur :: rest
  end.

(** [fields_from s skip keep cur] walks [s] rune by rune, as the loop
    [for end, rune := range s] of [strings.FieldsFunc] does: [cur] is the
    field being read, [skip] counts the bytes still to be passed over of
    the rune decoded last, and [keep] tells whether that rune belongs to
    the field (it is no white space). *)
Fixpoint fields_from (s : string) (skip : nat) (keep : bool) (cur : string)
  : list string :=
  match s with
  | EmptyString => flush cur []
  | String c s' =>
      match skip with
      | S k =>
          fields_from s' k keep (if keep then cur +:+ String c EmptyString else cur)
      | O =>
          let (r, size) := utf8.DecodeRuneInString s in
          if unicode.IsSpace r
          then flush cur (fields_from s' (size - 1) false EmptyString)
          else fields_from s' (size - 1) true (cur +:+ String c EmptyString)
      end
  end.

(** [strings.Fields(s)]: the maximal runs of runes that are not white
    space in the sense of [unicode.IsSpace]; never an empty piece.  (Go
    takes a shorter way through a string of ASCII bytes only, with a table
    of the same six ASCII white space bytes.) *)
Definition Fields (s : string) : list string := fields_from s O true EmptyString.

End strings.

Module strconv.

(** [strconv.Itoa] and the verb [%d]: decimal digits, a minus sign for a
    negative number. *)
Definition Itoa (n : Z) : string := NilZero.string_of_int (Z.to_int n).

Definition FormatBool (b : bool) : string := if b then "true" else "false".

(** [strconv.ParseBool]; [None] stands for its syntax error. *)
Definition ParseBool (s : string) : option bool :=
  if bool_decide (s ∈ ["1"; "t"; "T"; "TRUE"; "true"; "True"]) then Some true
  else if bool_decide (s ∈ ["0"; "f"; "F"; "FALSE"; "false"; "False"]) then Some false
  else None.

(** [strconv.ParseInt(s, 0, 0)] as the cast package applies it to the
    string of an environment variable ([None] for its error).  Which
    spellings beside plain decimal digits it accepts depends on the
    versions of Go and of cast, so the conversion is an interface of the
    development; [decimal] below is the instance used to run examples. *)
Class IntParser := ParseInt : string -> option Z.

Definition digit (c : ascii) : option Z :=
  let n := nat_of_ascii c in
  if ((48 <=? n) && (n <=? 57))%nat then Some (Z.of_nat (n - 48)) else None.

Fixpoint digits (s : string) (acc : Z) : option Z :=
  match s with
  | EmptyString => Some acc
  | String c s' =>
      match digit c with
      | Some d => digits s' (10 * acc + d)
      | None => None
      end
  end.

Definition unsigned (s : string) : option Z :=
  match s with
  | EmptyString => None
  | _ => digits s 0
  end.

Definition decimal : IntParser := fun s =>
  match s with
  | String "-" s' => Z.opp <$> unsigned s'
  | String "+" s' => unsigned s'
  | _ => unsigned s
  end.

End strconv.

Module fmt.

(** The operands the package passes to [fmt]. *)
Inductive operand :=
| Str (s : string)
| Int (n : Z).

Definition typeName (a : operand) : string :=
  match a with Str _ => "string" | Int _ => "int" end.

(** The default format [%v] of an operand. *)
Definition Sprint (a : operand) : string :=
  match a with
  | Str s => s
  | Int n => strconv.Itoa n
  end.

Definition bad (verb : ascii) (a : operand) : string :=
  "%!" +:+ String verb "(" +:+ typeName a +:+ "=" +:+ Sprint a +:+ ")".

Definition verb (v : ascii) (a : operand) : string :=
  match v, a with
  | "s"%char, Str s => s
  | "d"%char, Int n => strconv.Itoa n
  | "v"%char, _ => Sprint a
  | _, _ => bad v a
  end.

Fixpoint extra (args : list operand) : string :=
  match args with
  | [] => ""
  | [a] => typeName a +:+ "=" +:+ Sprint a
  | a :: rest => typeName a +:+ "=" +:+ Sprint a +:+ ", " +:+ extra rest
  end.

(** [fmt.Sprintf] for the verbs [%s], [%d], [%v] and [%%]: the format is
    copied, each verb consumes the next operand. *)
Fixpoint Sprintf (format : string) (args : list operand) : string :=
  match format with
  | EmptyString =>
      match args with
      | [] => ""
      | _ => "%!(EXTRA " +:+ extra args +:+ ")"
      end
  | String "%" (String "%" rest) => "%" +:+ Sprintf rest args
  | String "%" (String v rest) =>
      match args with
      | a :: args' => verb v a +:+ Sprintf rest args'
      | [] => "%!" +:+ String v "(MISSING)" +:+ Sprintf rest []
      end
  | String "%" EmptyString => "%!(NOVERB)"
  | String c rest => String c (Sprintf rest args)
  end.

End fmt.

Module os.

(** The environment of the process: the variables that are set, with
    their values.  A variable may be set to the empty string. *)
Definition LookupEnv (environ : gmap string string) (key : string) : option string :=
  environ !! key.

(** [os.Getenv]: the empty string for a variable that is not set. *)
Definition Getenv (environ : gmap string string) (key : string) : string :=
  default "" (LookupEnv environ key).

End os.

(** ** The environment and defaults provider: viper and cast *)

(** The values the package stores as defaults; a value read from the
    environment is always a string. *)
Inductive value :=
| VInt (n : Z)
| VBool (b : bool)
| VString (s : string)
| VStrings (l : list string).

(** The conversions of [github.com/spf13/cast] behind viper's typed getters.
    The argument is the [interface{}] that [viper.Get] returns, [None] for
    [nil]; a conversion that fails yields the zero value of the target
    type. *)
Module cast.
Section Conversions.
Context `{!strconv.IntParser}.

Definition ToString (i : option value) : string :=
  match i with
  | Some (VString s) => s
  | Some (VInt n) => strconv.Itoa n
  | Some (VBool b) => strconv.FormatBool b
  | Some (VStrings _) | None => ""
  end.

Definition ToInt (i : option value) : Z :=
  match i with
  | Some (VInt n) => n
  | Some (VString s) => default 0 (strconv.ParseInt s)
  | Some (VBool b) => if b then 1 else 0
  | Some (VStrings _) | None => 0
  end.

Definition ToBool (i : option value) : bool :=
  match i with
  | Some (VBool b) => b
  | Some (VInt n) => negb (Z.eqb n 0)
  | Some (VString s) => default false (strconv.ParseBool s)
  | Some (VStrings _) | None => false
  end.

(** Of the cases below the package reaches the first two only: the
    default of a list key is a list, a value from the environment is a
    string. *)
Definition ToStringSlice (i : option value) : list string :=
  match i with
  | Some (VStrings l) => l
  | Some (VString s) => strings.Fields s
  | Some v => [ToString (Some v)]
  | None => []
  end.

End Conversions.
End cast.

(** A viper instance as the package uses one: the registered defaults (keys
    are stored in lower case) and whether [AutomaticEnv] was called.  No
    prefix, key replacer, flag, configuration file or explicit [Set] is
    involved, and [AllowEmptyEnv] keeps its default, off.  Of viper's
    sources that leaves two, in this order of precedence: the environment,
    then the defaults. *)
Module viper.

Record t := mk {
  defaults : gmap string value;
  automaticEnvApplied : bool;
}.

Definition New : t := {| defaults := ∅; automaticEnvApplied := false |}.

Definition SetDefault (key : string) (val : value) (v : t) : t :=
  {| defaults := <[strings.ToLower key := val]> (defaults v);
     automaticEnvApplied := automaticEnvApplied v |}.

Definition AutomaticEnv (v : t) : t :=
  {| defaults := defaults v; automaticEnvApplied := true |}.

(** [getEnv] returns [os.LookupEnv(key)] and accepts it when the variable
    is set and, [AllowEmptyEnv] being off, its value is not empty. *)
Definition getEnv (environ : gmap string string) (key : string) : option string :=
  match os.LookupEnv environ key with
  | Some val => if String.eqb val "" then None else Some val
  | None => None
  end.

(** [find], for a key in lower case: after [AutomaticEnv] the environment
    variable named by the key in upper case, whether or not the key was
    registered, then the registered default; [nil] otherwise. *)
Definition find (environ : gmap string string) (v : t) (lcaseKey : string) : option value :=
  if automaticEnvApplied v then
    match getEnv environ (strings.ToUpper lcaseKey) with
    | Some val => Some (VString val)
    | None => defaults v !! lcaseKey
    end
  else defaults v !! lcaseKey.

Definition Get (environ : gmap string string) (v : t) (key : string) : option value :=
  find environ v (strings.ToLower key).

Section Getters.
Context `{!strconv.IntParser}.
Variable environ : gmap string string.

Definition GetString (v : t) (key : string) : string :=
  cast.ToString (Get environ v key).
Definition GetInt (v : t) (key : string) : Z :=
  cast.ToInt (Get environ v key).
Definition GetBool (v : t) (key : string) : bool :=
  cast.ToBool (Get environ v key).
Definition GetStringSlice (v : t) (key : string) : list string :=
  cast.ToStringSlice (Get environ v key).
End Getters.

End viper.

(** ** The resolved configuration (config.go, lines 19-83) *)

(** Addresses of heap objects: [*loggingConfig], [*string] and
    [*ExportConfig] are pointers, [None] is [nil]. *)
Definition loc := nat.

Module dbSSLConfig.
Record t := mk {
  RdsCa : option loc;
  SSLMode : string;
}.
End dbSSLConfig.

Module dbConfig.
Record t := mk {
  User : string;
  Password : string;
  Hostname : string;
  Port : string;
  Name : string;
  SSLCfg : dbSSLConfig.t;
}.

Definition zero : t :=
  {| User := ""; Password := ""; Hostname := ""; Port := ""; Name := "";
     SSLCfg := {| dbSSLConfig.RdsCa := None; dbSSLConfig.SSLMode := "" |} |}.
End dbConfig.

Module loggingConfig.
Record t := mk {
  AccessKeyID : string;
  SecretAccessKey : string;
  LogGroup : string;
  Region : string;
}.
End loggingConfig.

Module kafkaSSLConfig.
Record t := mk {
  CA : string;
  Username : string;
  Password : string;
  SASLMechanism : string;
  Protocol : string;
}.

(** The zero value of the struct. *)
Definition zero : t :=
  {| CA := ""; Username := ""; Password := ""; SASLMechanism := ""; Protocol := "" |}.
End kafkaSSLConfig.

Module kafkaConfig.
Record t := mk {
  Brokers : list string;
  GroupID : string;
  ExportsTopic : string;
  SSLConfig : kafkaSSLConfig.t;
  EventSource : string;
  EventSpecVersion : string;
  EventType : string;
  EventDataSchema : string;
}.

Definition zero : t :=
  {| Brokers := []; GroupID := ""; ExportsTopic := ""; SSLConfig := kafkaSSLConfig.zero;
     EventSource := ""; EventSpecVersion := ""; EventType := ""; EventDataSchema := "" |}.

Definition set_Brokers (x : list string) (k : t) : t :=
  {| Brokers := x; GroupID := GroupID k; ExportsTopic := ExportsTopic k;
     SSLConfig := SSLConfig k; EventSource := EventSource k;
     EventSpecVersion := EventSpecVersion k; EventType := EventType k;
     EventDataSchema := EventDataSchema k |}.

Definition set_SSLConfig (x : kafkaSSLConfig.t) (k : t) : t :=
  {| Brokers := Brokers k; GroupID := GroupID k; ExportsTopic := ExportsTopic k;
     SSLConfig := x; EventSource := EventSource k;
     EventSpecVersion := EventSpecVersion k; EventType := EventType k;
     EventDataSchema := EventDataSchema k |}.
End kafkaConfig.

Module storageConfig.
Record t := mk {
  Bucket : string;
  Endpoint : string;
  AccessKey : string;
  SecretKey : string;
  UseSSL : bool;
}.

Definition zero : t :=
  {| Bucket := ""; Endpoint := ""; AccessKey := ""; SecretKey := ""; UseSSL := false |}.
End storageConfig.

Module ExportConfig.
Record t := mk {
  Hostname : string;
  PublicPort : Z;
  MetricsPort : Z;
  PrivatePort : Z;
  Logging : option loc;
  LogLevel : string;
  Debug : bool;
  DBConfig : dbConfig.t;
  StorageConfig : storageConfig.t;
  KafkaConfig : kafkaConfig.t;
  OpenAPIPrivatePath : string;
  OpenAPIPublicPath : string;
  Psks : list string;
  ExportExpiryDays : Z;
}.

(** Assignments to one field of the struct. *)
Definition set_PublicPort (x : Z) (c : t) : t :=
  mk (Hostname c) x (MetricsPort c) (PrivatePort c) (Logging c) (LogLevel c)
     (Debug c) (DBConfig c) (StorageConfig c) (KafkaConfig c)
     (OpenAPIPrivatePath c) (OpenAPIPublicPath c) (Psks c) (ExportExpiryDays c).
Definition set_MetricsPort (x : Z) (c : t) : t :=
  mk (Hostname c) (PublicPort c) x (PrivatePort c) (Logging c) (LogLevel c)
     (Debug c) (DBConfig c) (StorageConfig c) (KafkaConfig c)
     (OpenAPIPrivatePath c) (OpenAPIPublicPath c) (Psks c) (ExportExpiryDays c).
Definition set_PrivatePort (x : Z) (c : t) : t :=
  mk (Hostname c) (PublicPort c) (MetricsPort c) x (Logging c) (LogLevel c)
     (Debug c) (DBConfig c) (StorageConfig c) (KafkaConfig c)
     (OpenAPIPrivatePath c) (OpenAPIPublicPath c) (Psks c) (ExportExpiryDays c).
Definition set_Logging (x : option loc) (c : t) : t :=
  mk (Hostname c) (PublicPort c) (MetricsPort c) (PrivatePort c) x (LogLevel c)
     (Debug c) (DBConfig c) (StorageConfig c) (KafkaConfig c)
     (OpenAPIPrivatePath c) (OpenAPIPublicPath c) (Psks c) (ExportExpiryDays c).
Definition set_DBConfig (x : dbConfig.t) (c : t) : t :=
  mk (Hostname c) (PublicPort c) (MetricsPort c) (PrivatePort c) (Logging c)
     (LogLevel c) (Debug c) x (StorageConfig c) (KafkaConfig c)
     (OpenAPIPrivatePath c) (OpenAPIPublicPath c) (Psks c) (ExportExpiryDays c).
Definition set_StorageConfig (x : storageConfig.t) (c : t) : t :=
  mk (Hostname c) (PublicPort c) (MetricsPort c) (PrivatePort c) (Logging c)
     (LogLevel c) (Debug c) (DBConfig c) x (KafkaConfig c)
     (OpenAPIPrivatePath c) (OpenAPIPublicPath c) (Psks c) (ExportExpiryDays c).
Definition set_KafkaConfig (x : kafkaConfig.t) (c : t) : t :=
  mk (Hostname c) (PublicPort c) (MetricsPort c) (PrivatePort c) (Logging c)
     (LogLevel c) (Debug c) (DBConfig c) (StorageConfig c) x
     (OpenAPIPrivatePath c) (OpenAPIPublicPath c) (Psks c) (ExportExpiryDays c).
End ExportConfig.

(** ** The platform-injection provider: app-common-go's [clowder] package *)

(** The structs of [LoadedConfig] with the fields the package reads (and
    those that describe a broker's certificate and address).  A pointer
    field is an [option]; the CA bundles are the contents of a PEM file.
    Go's [error] is modelled by [option string]: [None] is [nil], [Some msg]
    an error whose [Error()] is [msg]. *)
Module clowder.

Module DatabaseConfig.
Record t := mk {
  Hostname : string;
  Name : string;
  Password : string;
  Port : Z;
  RdsCa : option string;
  SslMode : string;
  Username : string;
}.
End DatabaseConfig.

Module KafkaSASLConfig.
Record t := mk {
  Password : option string;
  SaslMechanism : option string;
  Username : option string;
}.
End KafkaSASLConfig.

Module BrokerConfig.
Record t := mk {
  Authtype : option string;
  Cacert : option string;
  Hostname : string;
  Port : option Z;
  Sasl : option KafkaSASLConfig.t;
  SecurityProtocol : option string;
}.
End BrokerConfig.

Module KafkaConfig.
Record t := mk {
  Brokers : list BrokerConfig.t;
}.
End KafkaConfig.

Module CloudWatchConfig.
Record t := mk {
  AccessKeyId : string;
  LogGroup : string;
  Region : string;
  SecretAccessKey : string;
}.
End CloudWatchConfig.

Module LoggingConfig.
Record t := mk {
  Cloudwatch : option CloudWatchConfig.t;
}.
End LoggingConfig.

Module ObjectStoreBucket.
Record t := mk {
  AccessKey : option string;
  Name : string;
  RequestedName : string;
  SecretKey : option string;
}.

Definition zero : t :=
  {| AccessKey := None; Name := ""; RequestedName := ""; SecretKey := None |}.
End ObjectStoreBucket.

Module ObjectStoreConfig.
Record t := mk {
  Buckets : list ObjectStoreBucket.t;
  Hostname : string;
  Port : Z;
  Tls : bool;
}.
End ObjectStoreConfig.

Module AppConfig.
Record t := mk {
  Database : option DatabaseConfig.t;
  Kafka : option KafkaConfig.t;
  Logging : LoggingConfig.t;
  MetricsPort : Z;
  ObjectStore : option ObjectStoreConfig.t;
  PrivatePort : option Z;
  PublicPort : option Z;
}.
End AppConfig.

(** What the package sees of the provider: the activity flag, the package
    variables [LoadedConfig], [KafkaServers] and [ObjectBuckets], and the
    two methods that write a CA bundle to a file and return its path
    together with an error. *)
Record t := mk {
  IsClowderEnabled : bool;
  LoadedConfig : option AppConfig.t;
  KafkaServers : list string;
  ObjectBuckets : gmap string ObjectStoreBucket.t;
  RdsCa : AppConfig.t -> string * option string;
  KafkaCa : AppConfig.t -> list BrokerConfig.t -> string * option string;
}.

End clowder.

(** ** The state of the package and the effects of its code *)

Inductive object :=
| ObjExportConfig (c : ExportConfig.t)
| ObjLoggingConfig (l : loggingConfig.t)
| ObjString (s : string).

(** The heap, the package variable [config] (line 85) and the flag of the
    package variable [doOnce] (line 86): whether its [Do] has run. *)
Record package := mkPackage {
  heap : list object;
  config : option loc;
  doOnce : bool;
}.

(** The state of a process that has not called [Get] yet. *)
Definition initial : package := {| heap := []; config := None; doOnce := false |}.

(** A call returns or panics; either way it leaves a state behind. *)
Inductive result (A : Type) :=
| Ret (a : A)
| Panic (v : string).
Arguments Ret {A} a.
Arguments Panic {A} v.

Definition M (A : Type) : Type := package -> result A * package.

#[global] Instance M_ret : MRet M := fun A a st => (Ret a, st).

#[global] Instance M_bind : MBind M := fun A B f m st =>
  match m st with
  | (Ret a, st') => f a st'
  | (Panic v, st') => (Panic v, st')
  end.

Definition panic {A} (v : string) : M A := fun st => (Panic v, st).

Definition nilDereference : string :=
  "runtime error: invalid memory address or nil pointer dereference".

(** [*p], and [p.f], for a pointer [p]. *)
Definition deref {A} (p : option A) : M A :=
  match p with
  | Some a => mret a
  | None => panic nilDereference
  end.

(** [l[0]]. *)
Definition first {A} (l : list A) : M A :=
  match l with
  | a :: _ => mret a
  | [] => panic "runtime error: index out of range [0] with length 0"
  end.

(** [&T{...}], and the address of a local variable that escapes. *)
Definition new (o : object) : M loc := fun st =>
  (Ret (length (heap st)),
   {| heap := heap st ++ [o]; config := config st; doOnce := doOnce st |}).

(** [config = p]. *)
Definition assignConfig (p : option loc) : M unit := fun st =>
  (Ret tt, {| heap := heap st; config := p; doOnce := doOnce st |}).

(** The value of the package variable [config]. *)
Definition readConfig : M (option loc) := fun st => (Ret (config st), st).

(** [config.F = x]: a store through the pointer [config]. *)
Definition storeConfig (f : ExportConfig.t -> ExportConfig.t) : M unit := fun st =>
  match config st with
  | Some l =>
      match heap st !! l with
      | Some (ObjExportConfig c) =>
          (Ret tt, {| heap := <[l := ObjExportConfig (f c)]> (heap st);
                      config := config st; doOnce := doOnce st |})
      | _ => (Panic nilDereference, st)
      end
  | None => (Panic nilDereference, st)
  end.

(** [sync.Once]: [Do f] runs [f] unless a call of [Do] has run before, and
    counts as having run also when [f] panics (the flag is set in a
    deferred call); the panic goes on to the caller. *)
Module sync.
Definition Do (f : M unit) : M unit := fun st =>
  if doOnce st then (Ret tt, st)
  else
    let '(r, st') := f st in
    (r, {| heap := heap st'; config := config st'; doOnce := true |}).
End sync.

(** ** [buildBaseHttpUrl] (config.go, lines 252-259) *)

Definition buildBaseHttpUrl (tlsEnabled : bool) (hostname : string) (port : Z) : string :=
  let protocol := "http" in
  let protocol := if tlsEnabled then "https" else protocol in
  fmt.Sprintf "%s://%s:%d" [fmt.Str protocol; fmt.Str hostname; fmt.Int port].

(** ** [getRdsCaPath] (config.go, lines 238-250) *)

Definition getRdsCaPath (cl : clowder.t) (cfg : option clowder.AppConfig.t)
  : M (option loc * option string) :=
  let rdsCaPath : option loc := None in
  c ← deref cfg;
  database ← deref (clowder.AppConfig.Database c);
  if bool_decide (clowder.DatabaseConfig.RdsCa database ≠ None) then
    let '(rdsCaPathValue, err) := clowder.RdsCa cl c in
    if bool_decide (err ≠ None) then mret (None, err)
    else
      p ← new (ObjString rdsCaPathValue);
      let rdsCaPath := Some p in
      mret (rdsCaPath, None)
  else mret (rdsCaPath, None).

(** ** [Get] (config.go, lines 17 and 88-236) *)

Definition ExportTopic : string := "platform.export.requests".

Section Resolution.
Context `{!strconv.IntParser}.

(** The two inputs of the resolution: the environment of the process and
    the state of the platform provider. *)
Variable environ : gmap string string.
Variable platform : clowder.t.

(** Lines 91-123: the defaults, then [AutomaticEnv]. *)
Definition options : viper.t :=
  let options := viper.New in
  let options := viper.SetDefault "PUBLIC_PORT" (VInt 8000) options in
  let options := viper.SetDefault "METRICS_PORT" (VInt 9000) options in
  let options := viper.SetDefault "PRIVATE_PORT" (VInt 10000) options in
  let options := viper.SetDefault "LOG_LEVEL" (VString "INFO") options in
  let options := viper.SetDefault "DEBUG" (VBool false) options in
  let options := viper.SetDefault "OPEN_API_FILE_PATH" (VString "./static/spec/openapi.json") options in
  let options := viper.SetDefault "OPEN_API_PRIVATE_PATH" (VString "./static/spec/private.json") options in
  let options := viper.SetDefault "PSKS"
                   (VStrings (strings.Split (os.Getenv environ "EXPORTS_PSKS") ",")) options in
  let options := viper.SetDefault "EXPORT_EXPIRY_DAYS" (VInt 7) options in
  let options := viper.SetDefault "PGSQL_USER" (VString "postgres") options in
  let options := viper.SetDefault "PGSQL_PASSWORD" (VString "postgres") options in
  let options := viper.SetDefault "PGSQL_HOSTNAME" (VString "localhost") options in
  let options := viper.SetDefault "PGSQL_PORT" (VString "15433") options in
  let options := viper.SetDefault "PGSQL_DATABASE" (VString "postgres") options in
  let options := viper.SetDefault "MINIO_HOST" (VString "localhost") options in
  let options := viper.SetDefault "MINIO_PORT" (VString "9099") options in
  let options := viper.SetDefault "MINIO_SSL" (VBool false) options in
  let options := viper.SetDefault "KAFKA_ANNOUNCE_TOPIC" (VString ExportTopic) options in
  let options := viper.SetDefault "KAFKA_BROKERS"
                   (VStrings (strings.Split (os.Getenv environ "KAFKA_BROKERS") ",")) options in
  let options := viper.SetDefault "KAFKA_GROUP_ID" (VString "export") options in
  let options := viper.SetDefault "KAFKA_EVENT_SOURCE" (VString "urn:redhat:source:export-service") options in
  let options := viper.SetDefault "KAFKA_EVENT_SPECVERSION" (VString "1.0") options in
  let options := viper.SetDefault "KAFKA_EVENT_TYPE"
                   (VString "com.redhat.console.export-service.request") options in
  let options := viper.SetDefault "KAFKA_EVENT_DATASCHEMA"
                   (VString "https://github.com/RedHatInsights/event-schemas/blob/main/schemas/apps/export-service/v1/export-request.json")
                   options in
  viper.AutomaticEnv options.

(** Lines 125-126. *)
Definition kubenv : viper.t := viper.AutomaticEnv viper.New.

(** Lines 170-232: the branch taken when the platform provider is
    active. *)
Definition inject : M unit :=
  let cfg := clowder.LoadedConfig platform in
  c ← deref cfg;
  publicPort ← deref (clowder.AppConfig.PublicPort c);
  storeConfig (ExportConfig.set_PublicPort publicPort);;
  storeConfig (ExportConfig.set_MetricsPort (clowder.AppConfig.MetricsPort c));;
  privatePort ← deref (clowder.AppConfig.PrivatePort c);
  storeConfig (ExportConfig.set_PrivatePort privatePort);;
  let exportBucket := viper.GetString environ options "EXPORT_SERVICE_BUCKET" in
  let exportBucketInfo :=
    default clowder.ObjectStoreBucket.zero (clowder.ObjectBuckets platform !! exportBucket) in
  '(rdsCaPath, err) ← getRdsCaPath platform cfg;
  match err with
  | Some e => panic ("RDS CA failed to write: " +:+ e)
  | None =>
      database ← deref (clowder.AppConfig.Database c);
      storeConfig (ExportConfig.set_DBConfig
        {| dbConfig.User := clowder.DatabaseConfig.Username database;
           dbConfig.Password := clowder.DatabaseConfig.Password database;
           dbConfig.Hostname := clowder.DatabaseConfig.Hostname database;
           dbConfig.Port := fmt.Sprint (fmt.Int (clowder.DatabaseConfig.Port database));
           dbConfig.Name := clowder.DatabaseConfig.Name database;
           dbConfig.SSLCfg :=
             {| dbSSLConfig.SSLMode := clowder.DatabaseConfig.SslMode database;
                dbSSLConfig.RdsCa := rdsCaPath |} |});;
      storeConfig (fun x => ExportConfig.set_KafkaConfig
        (kafkaConfig.set_Brokers (clowder.KafkaServers platform) (ExportConfig.KafkaConfig x)) x);;
      kafka ← deref (clowder.AppConfig.Kafka c);
      broker ← first (clowder.KafkaConfig.Brokers kafka);
      (if bool_decide (clowder.BrokerConfig.Authtype broker ≠ None) then
         let '(caPath, err) := clowder.KafkaCa platform c [broker] in
         match err with
         | Some _ => panic "Kafka CA failed to write"
         | None =>
             let securityProtocol := "sasl_ssl" in
             let securityProtocol :=
               match clowder.BrokerConfig.SecurityProtocol broker with
               | Some p => p
               | None => securityProtocol
               end in
             sasl ← deref (clowder.BrokerConfig.Sasl broker);
             username ← deref (clowder.KafkaSASLConfig.Username sasl);
             password ← deref (clowder.KafkaSASLConfig.Password sasl);
             saslMechanism ← deref (clowder.KafkaSASLConfig.SaslMechanism sasl);
             storeConfig (fun x => ExportConfig.set_KafkaConfig
               (kafkaConfig.set_SSLConfig
                  {| kafkaSSLConfig.Username := username;
                     kafkaSSLConfig.Password := password;
                     kafkaSSLConfig.SASLMechanism := saslMechanism;
                     kafkaSSLConfig.Protocol := securityProtocol;
                     kafkaSSLConfig.CA := caPath |}
                  (ExportConfig.KafkaConfig x)) x)
         end
       else mret tt);;
      cloudwatch ← deref (clowder.LoggingConfig.Cloudwatch (clowder.AppConfig.Logging c));
      logging ← new (ObjLoggingConfig
        {| loggingConfig.AccessKeyID := clowder.CloudWatchConfig.AccessKeyId cloudwatch;
           loggingConfig.SecretAccessKey := clowder.CloudWatchConfig.SecretAccessKey cloudwatch;
           loggingConfig.LogGroup := clowder.CloudWatchConfig.LogGroup cloudwatch;
           loggingConfig.Region := clowder.CloudWatchConfig.Region cloudwatch |});
      storeConfig (ExportConfig.set_Logging (Some logging));;
      objectStore ← deref (clowder.AppConfig.ObjectStore c);
      bucket ← first (clowder.ObjectStoreConfig.Buckets objectStore);
      accessKey ← deref (clowder.ObjectStoreBucket.AccessKey bucket);
      secretKey ← deref (clowder.ObjectStoreBucket.SecretKey bucket);
      storeConfig (ExportConfig.set_StorageConfig
        {| storageConfig.Bucket := clowder.ObjectStoreBucket.RequestedName exportBucketInfo;
           storageConfig.Endpoint :=
             buildBaseHttpUrl (clowder.ObjectStoreConfig.Tls objectStore)
               (clowder.ObjectStoreConfig.Hostname objectStore)
               (clowder.ObjectStoreConfig.Port objectStore);
           storageConfig.AccessKey := accessKey;
           storageConfig.SecretKey := secretKey;
           storageConfig.UseSSL := clowder.ObjectStoreConfig.Tls objectStore |})
  end.

(** Lines 90-233: the function passed to [doOnce.Do]. *)
Definition initialize : M unit :=
  let options := options in
  let kubenv := kubenv in
  p ← new (ObjExportConfig
    {| ExportConfig.Hostname := viper.GetString environ kubenv "Hostname";
       ExportConfig.PublicPort := viper.GetInt environ options "PUBLIC_PORT";
       ExportConfig.MetricsPort := viper.GetInt environ options "METRICS_PORT";
       ExportConfig.PrivatePort := viper.GetInt environ options "PRIVATE_PORT";
       ExportConfig.Logging := None;
       ExportConfig.LogLevel := viper.GetString environ options "LOG_LEVEL";
       ExportConfig.Debug := viper.GetBool environ options "DEBUG";
       ExportConfig.DBConfig := dbConfig.zero;
       ExportConfig.StorageConfig := storageConfig.zero;
       ExportConfig.KafkaConfig := kafkaConfig.zero;
       ExportConfig.OpenAPIPrivatePath := viper.GetString environ options "OPEN_API_PRIVATE_PATH";
       ExportConfig.OpenAPIPublicPath := viper.GetString environ options "OPEN_API_FILE_PATH";
       ExportConfig.Psks := viper.GetStringSlice environ options "PSKS";
       ExportConfig.ExportExpiryDays := viper.GetInt environ options "EXPORT_EXPIRY_DAYS" |});
  assignConfig (Some p);;
  storeConfig (ExportConfig.set_DBConfig
    {| dbConfig.User := viper.GetString environ options "PGSQL_USER";
       dbConfig.Password := viper.GetString environ options "PGSQL_PASSWORD";
       dbConfig.Hostname := viper.GetString environ options "PGSQL_HOSTNAME";
       dbConfig.Port := viper.GetString environ options "PGSQL_PORT";
       dbConfig.Name := viper.GetString environ options "PGSQL_DATABASE";
       dbConfig.SSLCfg :=
         {| dbSSLConfig.SSLMode := "disable"; dbSSLConfig.RdsCa := None |} |});;
  storeConfig (ExportConfig.set_StorageConfig
    {| storageConfig.Bucket := "exports-bucket";
       storageConfig.Endpoint :=
         buildBaseHttpUrl (viper.GetBool environ options "MINIO_SSL")
           (viper.GetString environ options "MINIO_HOST")
           (viper.GetInt environ options "MINIO_PORT");
       storageConfig.AccessKey := viper.GetString environ options "AWS_ACCESS_KEY";
       storageConfig.SecretKey := viper.GetString environ options "AWS_SECRET_ACCESS_KEY";
       storageConfig.UseSSL := viper.GetBool environ options "MINIO_SSL" |});;
  storeConfig (ExportConfig.set_KafkaConfig
    {| kafkaConfig.Brokers := viper.GetStringSlice environ options "KAFKA_BROKERS";
       kafkaConfig.GroupID := viper.GetString environ options "KAFKA_GROUP_ID";
       kafkaConfig.ExportsTopic := viper.GetString environ options "KAFKA_ANNOUNCE_TOPIC";
       kafkaConfig.SSLConfig := kafkaSSLConfig.zero;
       kafkaConfig.EventSource := viper.GetString environ options "KAFKA_EVENT_SOURCE";
       kafkaConfig.EventSpecVersion := viper.GetString environ options "KAFKA_EVENT_SPECVERSION";
       kafkaConfig.EventType := viper.GetString environ options "KAFKA_EVENT_TYPE";
       kafkaConfig.EventDataSchema := viper.GetString environ options "KAFKA_EVENT_DATASCHEMA" |});;
  if clowder.IsClowderEnabled platform then inject else mret tt.

(** Lines 89-236. *)
Definition Get : M (option loc) :=
  sync.Do initialize;;
  readConfig.

End Resolution.

(** ** Vocabulary of the statements *)

Arguments viper.GetString : simpl never.
Arguments viper.GetInt : simpl never.
Arguments viper.GetBool : simpl never.
Arguments viper.GetStringSlice : simpl never.
Arguments buildBaseHttpUrl : simpl never.
Arguments fmt.Sprint : simpl never.
Arguments options : simpl never.
Arguments kubenv : simpl never.

(** The object a pointer to an [ExportConfig] points to. *)
Definition pointsTo (st : package) (p : option loc) : option ExportConfig.t :=
  match p with
  | Some l =>
      match heap st !! l with
      | Some (ObjExportConfig c) => Some c
      | _ => None
      end
  | None => None
  end.

(** States in which [config] points to an [ExportConfig]: the heap [h]
    that existed before the object was allocated, the object, and what was
    allocated after it. *)
Definition holding (h : list object) (c : ExportConfig.t) (t : list object) (d : bool)
  : package :=
  {| heap := h ++ ObjExportConfig c :: t; config := Some (length h); doOnce := d |}.

(** The object [config] points to when line 170 is reached. *)
Definition environmentStage `{!strconv.IntParser} (environ : gmap string string)
  : ExportConfig.t :=
  let options := options environ in
  {| ExportConfig.Hostname := viper.GetString environ kubenv "Hostname";
     ExportConfig.PublicPort := viper.GetInt environ options "PUBLIC_PORT";
     ExportConfig.MetricsPort := viper.GetInt environ options "METRICS_PORT";
     ExportConfig.PrivatePort := viper.GetInt environ options "PRIVATE_PORT";
     ExportConfig.Logging := None;
     ExportConfig.LogLevel := viper.GetString environ options "LOG_LEVEL";
     ExportConfig.Debug := viper.GetBool environ options "DEBUG";
     ExportConfig.DBConfig :=
       {| dbConfig.User := viper.GetString environ options "PGSQL_USER";
          dbConfig.Password := viper.GetString environ options "PGSQL_PASSWORD";
          dbConfig.Hostname := viper.GetString environ options "PGSQL_HOSTNAME";
          dbConfig.Port := viper.GetString environ options "PGSQL_PORT";
          dbConfig.Name := viper.GetString environ options "PGSQL_DATABASE";
          dbConfig.SSLCfg :=
            {| dbSSLConfig.SSLMode := "disable"; dbSSLConfig.RdsCa := None |} |};
     ExportConfig.StorageConfig :=
       {| storageConfig.Bucket := "exports-bucket";
          storageConfig.Endpoint :=
            buildBaseHttpUrl (viper.GetBool environ options "MINIO_SSL")
              (viper.GetString environ options "MINIO_HOST")
              (viper.GetInt environ options "MINIO_PORT");
          storageConfig.AccessKey := viper.GetString environ options "AWS_ACCESS_KEY";
          storageConfig.SecretKey := viper.GetString environ options "AWS_SECRET_ACCESS_KEY";
          storageConfig.UseSSL := viper.GetBool environ options "MINIO_SSL" |};
     ExportConfig.KafkaConfig :=
       {| kafkaConfig.Brokers := viper.GetStringSlice environ options "KAFKA_BROKERS";
          kafkaConfig.GroupID := viper.GetString environ options "KAFKA_GROUP_ID";
          kafkaConfig.ExportsTopic := viper.GetString environ options "KAFKA_ANNOUNCE_TOPIC";
          kafkaConfig.SSLConfig := kafkaSSLConfig.zero;
          kafkaConfig.EventSource := viper.GetString environ options "KAFKA_EVENT_SOURCE";
          kafkaConfig.EventSpecVersion := viper.GetString environ options "KAFKA_EVENT_SPECVERSION";
          kafkaConfig.EventType := viper.GetString environ options "KAFKA_EVENT_TYPE";
          kafkaConfig.EventDataSchema := viper.GetString environ options "KAFKA_EVENT_DATASCHEMA" |};
     ExportConfig.OpenAPIPrivatePath := viper.GetString environ options "OPEN_API_PRIVATE_PATH";
     ExportConfig.OpenAPIPublicPath := viper.GetString environ options "OPEN_API_FILE_PATH";
     ExportConfig.Psks := viper.GetStringSlice environ options "PSKS";
     ExportConfig.ExportExpiryDays := viper.GetInt environ options "EXPORT_EXPIRY_DAYS" |}.

(** ** The platform stage as a function of the provider *)

(** What lines 170-232 read from the provider when every pointer they
    follow is set and every CA bundle they ask for is written: the values,
    in the order in which the code obtains them. *)
Record injection := mkInjection {
  cfg : clowder.AppConfig.t;
  publicPort : Z;
  privatePort : Z;
  database : clowder.DatabaseConfig.t;
  rdsCaPathValue : option string;
  broker : clowder.BrokerConfig.t;
  sslConfig : option kafkaSSLConfig.t;
  cloudwatch : clowder.CloudWatchConfig.t;
  objectStore : clowder.ObjectStoreConfig.t;
  bucket : clowder.ObjectStoreBucket.t;
  accessKey : string;
  secretKey : string;
}.

Notation "'let?' x := o 'in' k" :=
  (match o with Some x => k | None => None end)
  (at level 10, x name, o at level 100, k at level 200, only parsing).

(** The file written for the database: none when no bundle is declared. *)
Definition writeRdsCa (platform : clowder.t) (c : clowder.AppConfig.t)
    (db : clowder.DatabaseConfig.t) : option (option string) :=
  match clowder.DatabaseConfig.RdsCa db with
  | Some _ =>
      match clowder.RdsCa platform c with
      | (path, None) => Some (Some path)
      | (_, Some _) => None
      end
  | None => Some None
  end.

(** The SSL policy built from the first broker: none when the broker has
    no authentication type. *)
Definition brokerPolicy (platform : clowder.t) (c : clowder.AppConfig.t)
    (b : clowder.BrokerConfig.t) : option (option kafkaSSLConfig.t) :=
  match clowder.BrokerConfig.Authtype b with
  | Some _ =>
      match clowder.KafkaCa platform c [b] with
      | (caPath, None) =>
          let? sasl := clowder.BrokerConfig.Sasl b in
          let? username := clowder.KafkaSASLConfig.Username sasl in
          let? password := clowder.KafkaSASLConfig.Password sasl in
          let? saslMechanism := clowder.KafkaSASLConfig.SaslMechanism sasl in
          Some (Some
            {| kafkaSSLConfig.Username := username;
               kafkaSSLConfig.Password := password;
               kafkaSSLConfig.SASLMechanism := saslMechanism;
               kafkaSSLConfig.Protocol :=
                 default "sasl_ssl" (clowder.BrokerConfig.SecurityProtocol b);
               kafkaSSLConfig.CA := caPath |})
      | (_, Some _) => None
      end
  | None => Some None
  end.

Definition readInjection (platform : clowder.t) : option injection :=
  let? c := clowder.LoadedConfig platform in
  let? publicPort := clowder.AppConfig.PublicPort c in
  let? privatePort := clowder.AppConfig.PrivatePort c in
  let? db := clowder.AppConfig.Database c in
  let? rds := writeRdsCa platform c db in
  let? kafka := clowder.AppConfig.Kafka c in
  let? b := head (clowder.KafkaConfig.Brokers kafka) in
  let? ssl := brokerPolicy platform c b in
  let? cw := clowder.LoggingConfig.Cloudwatch (clowder.AppConfig.Logging c) in
  let? os := clowder.AppConfig.ObjectStore c in
  let? bk := head (clowder.ObjectStoreConfig.Buckets os) in
  let? ak := clowder.ObjectStoreBucket.AccessKey bk in
  let? sk := clowder.ObjectStoreBucket.SecretKey bk in
  Some (mkInjection c publicPort privatePort db rds b ssl cw os bk ak sk).

(** The objects the platform stage allocates after those in [t], and
    their addresses, for a heap in which [n] objects precede [t]. *)
Definition allocated (r : injection) (t : list object) : list object :=
  let logging :=
    ObjLoggingConfig
      {| loggingConfig.AccessKeyID := clowder.CloudWatchConfig.AccessKeyId (cloudwatch r);
         loggingConfig.SecretAccessKey := clowder.CloudWatchConfig.SecretAccessKey (cloudwatch r);
         loggingConfig.LogGroup := clowder.CloudWatchConfig.LogGroup (cloudwatch r);
         loggingConfig.Region := clowder.CloudWatchConfig.Region (cloudwatch r) |} in
  match rdsCaPathValue r with
  | Some path => (t ++ [ObjString path]) ++ [logging]
  | None => t ++ [logging]
  end.

Definition rdsCaPath (r : injection) (n : nat) (t : list object) : option loc :=
  match rdsCaPathValue r with
  | Some _ => Some (n + S (length t))%nat
  | None => None
  end.

Definition logging (r : injection) (n : nat) (t : list object) : loc :=
  match rdsCaPathValue r with
  | Some path => (n + S (length (t ++ [ObjString path])))%nat
  | None => (n + S (length t))%nat
  end.

(** The object [config] points to when the platform stage is over, from
    the values read, the bucket name looked up, the two addresses and the
    object [c] of the environment stage. *)
Definition injected (platform : clowder.t) (r : injection) (exportBucket : string)
    (rdsCa : option loc) (logging : loc) (c : ExportConfig.t) : ExportConfig.t :=
  {| ExportConfig.Hostname := ExportConfig.Hostname c;
     ExportConfig.PublicPort := publicPort r;
     ExportConfig.MetricsPort := clowder.AppConfig.MetricsPort (cfg r);
     ExportConfig.PrivatePort := privatePort r;
     ExportConfig.Logging := Some logging;
     ExportConfig.LogLevel := ExportConfig.LogLevel c;
     ExportConfig.Debug := ExportConfig.Debug c;
     ExportConfig.DBConfig :=
       {| dbConfig.User := clowder.DatabaseConfig.Username (database r);
          dbConfig.Password := clowder.DatabaseConfig.Password (database r);
          dbConfig.Hostname := clowder.DatabaseConfig.Hostname (database r);
          dbConfig.Port := fmt.Sprint (fmt.Int (clowder.DatabaseConfig.Port (database r)));
          dbConfig.Name := clowder.DatabaseConfig.Name (database r);
          dbConfig.SSLCfg :=
            {| dbSSLConfig.SSLMode := clowder.DatabaseConfig.SslMode (database r);
               dbSSLConfig.RdsCa := rdsCa |} |};
     ExportConfig.StorageConfig :=
       {| storageConfig.Bucket :=
            clowder.ObjectStoreBucket.RequestedName
              (default clowder.ObjectStoreBucket.zero
                 (clowder.ObjectBuckets platform !! exportBucket));
          storageConfig.Endpoint :=
            buildBaseHttpUrl (clowder.ObjectStoreConfig.Tls (objectStore r))
              (clowder.ObjectStoreConfig.Hostname (objectStore r))
              (clowder.ObjectStoreConfig.Port (objectStore r));
          storageConfig.AccessKey := accessKey r;
          storageConfig.SecretKey := secretKey r;
          storageConfig.UseSSL := clowder.ObjectStoreConfig.Tls (objectStore r) |};
     ExportConfig.KafkaConfig :=
       {| kafkaConfig.Brokers := clowder.KafkaServers platform;
          kafkaConfig.GroupID := kafkaConfig.GroupID (ExportConfig.KafkaConfig c);
          kafkaConfig.ExportsTopic := kafkaConfig.ExportsTopic (ExportConfig.KafkaConfig c);
          kafkaConfig.SSLConfig :=
            default (kafkaConfig.SSLConfig (ExportConfig.KafkaConfig c)) (sslConfig r);
          kafkaConfig.EventSource := kafkaConfig.EventSource (ExportConfig.KafkaConfig c);
          kafkaConfig.EventSpecVersion :=
            kafkaConfig.EventSpecVersion (ExportConfig.KafkaConfig c);
          kafkaConfig.EventType := kafkaConfig.EventType (ExportConfig.KafkaConfig c);
          kafkaConfig.EventDataSchema :=
            kafkaConfig.EventDataSchema (ExportConfig.KafkaConfig c) |};
     ExportConfig.OpenAPIPrivatePath := ExportConfig.OpenAPIPrivatePath c;
     ExportConfig.OpenAPIPublicPath := ExportConfig.OpenAPIPublicPath c;
     ExportConfig.Psks := ExportConfig.Psks c;
     ExportConfig.ExportExpiryDays := ExportConfig.ExportExpiryDays c |}.

(** ** The fields of the environment stage and their variables *)

(** The fields of the snapshot that lines 128-168 fill from the
    environment. *)
Inductive field :=
| Hostname | PublicPort | MetricsPort | PrivatePort | LogLevel | Debug
| OpenAPIPublicPath | OpenAPIPrivatePath | Psks | ExportExpiryDays
| DBUser | DBPassword | DBHostname | DBPort | DBName
| StorageEndpoint | StorageAccessKey | StorageSecretKey | StorageUseSSL
| KafkaBrokers | KafkaGroupID | KafkaExportsTopic | KafkaEventSource
| KafkaEventSpecVersion | KafkaEventType | KafkaEventDataSchema.

Definition fieldValue (f : field) (c : ExportConfig.t) : value :=
  match f with
  | Hostname => VString (ExportConfig.Hostname c)
  | PublicPort => VInt (ExportConfig.PublicPort c)
  | MetricsPort => VInt (ExportConfig.MetricsPort c)
  | PrivatePort => VInt (ExportConfig.PrivatePort c)
  | LogLevel => VString (ExportConfig.LogLevel c)
  | Debug => VBool (ExportConfig.Debug c)
  | OpenAPIPublicPath => VString (ExportConfig.OpenAPIPublicPath c)
  | OpenAPIPrivatePath => VString (ExportConfig.OpenAPIPrivatePath c)
  | Psks => VStrings (ExportConfig.Psks c)
  | ExportExpiryDays => VInt (ExportConfig.ExportExpiryDays c)
  | DBUser => VString (dbConfig.User (ExportConfig.DBConfig c))
  | DBPassword => VString (dbConfig.Password (ExportConfig.DBConfig c))
  | DBHostname => VString (dbConfig.Hostname (ExportConfig.DBConfig c))
  | DBPort => VString (dbConfig.Port (ExportConfig.DBConfig c))
  | DBName => VString (dbConfig.Name (ExportConfig.DBConfig c))
  | StorageEndpoint => VString (storageConfig.Endpoint (ExportConfig.StorageConfig c))
  | StorageAccessKey => VString (storageConfig.AccessKey (ExportConfig.StorageConfig c))
  | StorageSecretKey => VString (storageConfig.SecretKey (ExportConfig.StorageConfig c))
  | StorageUseSSL => VBool (storageConfig.UseSSL (ExportConfig.StorageConfig c))
  | KafkaBrokers => VStrings (kafkaConfig.Brokers (ExportConfig.KafkaConfig c))
  | KafkaGroupID => VString (kafkaConfig.GroupID (ExportConfig.KafkaConfig c))
  | KafkaExportsTopic => VString (kafkaConfig.ExportsTopic (ExportConfig.KafkaConfig c))
  | KafkaEventSource => VString (kafkaConfig.EventSource (ExportConfig.KafkaConfig c))
  | KafkaEventSpecVersion => VString (kafkaConfig.EventSpecVersion (ExportConfig.KafkaConfig c))
  | KafkaEventType => VString (kafkaConfig.EventType (ExportConfig.KafkaConfig c))
  | KafkaEventDataSchema => VString (kafkaConfig.EventDataSchema (ExportConfig.KafkaConfig c))
  end.

(** The environment variables a field is computed from. *)
Definition variables (f : field) : list string :=
  match f with
  | Hostname => ["HOSTNAME"]
  | PublicPort => ["PUBLIC_PORT"]
  | MetricsPort => ["METRICS_PORT"]
  | PrivatePort => ["PRIVATE_PORT"]
  | LogLevel => ["LOG_LEVEL"]
  | Debug => ["DEBUG"]
  | OpenAPIPublicPath => ["OPEN_API_FILE_PATH"]
  | OpenAPIPrivatePath => ["OPEN_API_PRIVATE_PATH"]
  | Psks => ["PSKS"; "EXPORTS_PSKS"]
  | ExportExpiryDays => ["EXPORT_EXPIRY_DAYS"]
  | DBUser => ["PGSQL_USER"]
  | DBPassword => ["PGSQL_PASSWORD"]
  | DBHostname => ["PGSQL_HOSTNAME"]
  | DBPort => ["PGSQL_PORT"]
  | DBName => ["PGSQL_DATABASE"]
  | StorageEndpoint => ["MINIO_SSL"; "MINIO_HOST"; "MINIO_PORT"]
  | StorageAccessKey => ["AWS_ACCESS_KEY"]
  | StorageSecretKey => ["AWS_SECRET_ACCESS_KEY"]
  | StorageUseSSL => ["MINIO_SSL"]
  | KafkaBrokers => ["KAFKA_BROKERS"]
  | KafkaGroupID => ["KAFKA_GROUP_ID"]
  | KafkaExportsTopic => ["KAFKA_ANNOUNCE_TOPIC"]
  | KafkaEventSource => ["KAFKA_EVENT_SOURCE"]
  | KafkaEventSpecVersion => ["KAFKA_EVENT_SPECVERSION"]
  | KafkaEventType => ["KAFKA_EVENT_TYPE"]
  | KafkaEventDataSchema => ["KAFKA_EVENT_DATASCHEMA"]
  end.

(** The value of a field whose variable has the value [v]: the string,
    converted to the type of the field as the getter of the field does
    it. *)
Definition converted `{!strconv.IntParser} (f : field) (v : string) : value :=
  match f with
  | PublicPort | MetricsPort | PrivatePort | ExportExpiryDays =>
      VInt (cast.ToInt (Some (VString v)))
  | Debug | StorageUseSSL => VBool (cast.ToBool (Some (VString v)))
  | Psks | KafkaBrokers => VStrings (cast.ToStringSlice (Some (VString v)))
  | _ => VString v
  end.

(** The environment variables the specification lists as recognised. *)
Definition recognized : list string :=
  [ "PUBLIC_PORT"; "METRICS_PORT"; "PRIVATE_PORT"; "LOG_LEVEL"; "DEBUG";
    "OPEN_API_FILE_PATH"; "OPEN_API_PRIVATE_PATH"; "EXPORTS_PSKS"; "EXPORT_EXPIRY_DAYS";
    "PGSQL_USER"; "PGSQL_PASSWORD"; "PGSQL_HOSTNAME"; "PGSQL_PORT"; "PGSQL_DATABASE";
    "MINIO_HOST"; "MINIO_PORT"; "MINIO_SSL"; "AWS_ACCESS_KEY"; "AWS_SECRET_ACCESS_KEY";
    "KAFKA_BROKERS"; "KAFKA_GROUP_ID"; "KAFKA_ANNOUNCE_TOPIC"; "KAFKA_EVENT_SOURCE";
    "KAFKA_EVENT_SPECVERSION"; "KAFKA_EVENT_TYPE"; "KAFKA_EVENT_DATASCHEMA";
    "EXPORT_SERVICE_BUCKET" ].

(** The platform stage reaches the write of the CA bundle of the database
    (line 180 and [getRdsCaPath]) and the write fails with the error [e]:
    the configuration is loaded, the two port pointers of lines 173 and 175
    are set, the database declares a bundle and [cfg.RdsCa()] returns
    [e]. *)
Definition rdsCaFails (platform : clowder.t) (e : string) : Prop :=
  exists c publicPort privatePort db,
    clowder.LoadedConfig platform = Some c /\
    clowder.AppConfig.PublicPort c = Some publicPort /\
    clowder.AppConfig.PrivatePort c = Some privatePort /\
    clowder.AppConfig.Database c = Some db /\
    clowder.DatabaseConfig.RdsCa db ≠ None /\
    snd (clowder.RdsCa platform c) = Some e.

(** The platform stage reaches the write of the CA bundle of the broker
    (line 200) and the write fails: lines 173-195 have gone through (a
    bundle that the database declares has been written), the platform
    lists a broker, the first one has an authentication type and
    [cfg.KafkaCa(broker)] returns an error. *)
Definition kafkaCaFails (platform : clowder.t) : Prop :=
  exists c publicPort privatePort db kafka b,
    clowder.LoadedConfig platform = Some c /\
    clowder.AppConfig.PublicPort c = Some publicPort /\
    clowder.AppConfig.PrivatePort c = Some privatePort /\
    clowder.AppConfig.Database c = Some db /\
    (clowder.DatabaseConfig.RdsCa db ≠ None -> snd (clowder.RdsCa platform c) = None) /\
    clowder.AppConfig.Kafka c = Some kafka /\
    head (clowder.KafkaConfig.Brokers kafka) = Some b /\
    clowder.BrokerConfig.Authtype b ≠ None /\
    snd (clowder.KafkaCa platform c [b]) ≠ None.

(** The object [config] points to when the platform stage has stopped
    between line 175 and line 216: the object [c] of the environment stage
    with the three ports, the database configuration and the broker
    addresses that have been assigned by then. *)
Definition interrupted (c : ExportConfig.t) (publicPort metricsPort privatePort : Z)
    (db : dbConfig.t) (brokers : list string) : ExportConfig.t :=
  {| ExportConfig.Hostname := ExportConfig.Hostname c;
     ExportConfig.PublicPort := publicPort;
     ExportConfig.MetricsPort := metricsPort;
     ExportConfig.PrivatePort := privatePort;
     ExportConfig.Logging := ExportConfig.Logging c;
     ExportConfig.LogLevel := ExportConfig.LogLevel c;
     ExportConfig.Debug := ExportConfig.Debug c;
     ExportConfig.DBConfig := db;
     ExportConfig.StorageConfig := ExportConfig.StorageConfig c;
     ExportConfig.KafkaConfig :=
       {| kafkaConfig.Brokers := brokers;
          kafkaConfig.GroupID := kafkaConfig.GroupID (ExportConfig.KafkaConfig c);
          kafkaConfig.ExportsTopic := kafkaConfig.ExportsTopic (ExportConfig.KafkaConfig c);
          kafkaConfig.SSLConfig := kafkaConfig.SSLConfig (ExportConfig.KafkaConfig c);
          kafkaConfig.EventSource := kafkaConfig.EventSource (ExportConfig.KafkaConfig c);
          kafkaConfig.EventSpecVersion :=
            kafkaConfig.EventSpecVersion (ExportConfig.KafkaConfig c);
          kafkaConfig.EventType := kafkaConfig.EventType (ExportConfig.KafkaConfig c);
          kafkaConfig.EventDataSchema :=
            kafkaConfig.EventDataSchema (ExportConfig.KafkaConfig c) |};
     ExportConfig.OpenAPIPrivatePath := ExportConfig.OpenAPIPrivatePath c;
     ExportConfig.OpenAPIPublicPath := ExportConfig.OpenAPIPublicPath c;
     ExportConfig.Psks := ExportConfig.Psks c;
     ExportConfig.ExportExpiryDays := ExportConfig.ExportExpiryDays c |}.

(** ** Variations of the inputs *)

(** The provider with another method to write the CA bundle of the
    database, and with another one for the bundle of the broker. *)
Definition withRdsCa (f : clowder.AppConfig.t -> string * option string)
    (platform : clowder.t) : clowder.t :=
  {| clowder.IsClowderEnabled := clowder.IsClowderEnabled platform;
     clowder.LoadedConfig := clowder.LoadedConfig platform;
     clowder.KafkaServers := clowder.KafkaServers platform;
     clowder.ObjectBuckets := clowder.ObjectBuckets platform;
     clowder.RdsCa := f;
     clowder.KafkaCa := clowder.KafkaCa platform |}.

Definition withKafkaCa
    (g : clowder.AppConfig.t -> list clowder.BrokerConfig.t -> string * option string)
    (platform : clowder.t) : clowder.t :=
  {| clowder.IsClowderEnabled := clowder.IsClowderEnabled platform;
     clowder.LoadedConfig := clowder.LoadedConfig platform;
     clowder.KafkaServers := clowder.KafkaServers platform;
     clowder.ObjectBuckets := clowder.ObjectBuckets platform;
     clowder.RdsCa := clowder.RdsCa platform;
     clowder.KafkaCa := g |}.

(** A process that calls [Get] again and again, each time in the
    environment and with the provider of the moment, and goes on after a
    panic (it recovers): the outcomes of the calls and the last state. *)
Fixpoint calls `{!strconv.IntParser} (inputs : list (gmap string string * clowder.t))
    (st : package) : list (result (option loc)) * package :=
  match inputs with
  | [] => ([], st)
  | (environ, platform) :: rest =>
      let '(r, st1) := Get environ platform st in
      let '(rs, st2) := calls rest st1 in
      (r :: rs, st2)
  end.

(** Strings without a white space rune, read rune by rune as
    [strings.Fields] reads them: [skip] counts the bytes still to be passed
    over of the rune decoded last. *)
Fixpoint noSpace_from (s : string) (skip : nat) : bool :=
  match s with
  | EmptyString => true
  | String c s' =>
      match skip with
      | S k => noSpace_from s' k
      | O =>
          let (r, size) := utf8.DecodeRuneInString s in
          negb (unicode.IsSpace r) && noSpace_from s' (size - 1)
      end
  end.

Definition noSpace (s : string) : bool := noSpace_from s O.

(** ** Sample inputs *)

Module sample.

(** A provider that is not active. *)
Definition off : clowder.t :=
  {| clowder.IsClowderEnabled := false; clowder.LoadedConfig := None;
     clowder.KafkaServers := []; clowder.ObjectBuckets := ∅;
     clowder.RdsCa := fun _ => ("", None);
     clowder.KafkaCa := fun _ _ => ("", None) |}.

Definition bucket : clowder.ObjectStoreBucket.t :=
  {| clowder.ObjectStoreBucket.AccessKey := Some "AK";
     clowder.ObjectStoreBucket.Name := "exports";
     clowder.ObjectStoreBucket.RequestedName := "exports-requested";
     clowder.ObjectStoreBucket.SecretKey := Some "SK" |}.

Definition broker (protocol : option string) : clowder.BrokerConfig.t :=
  {| clowder.BrokerConfig.Authtype := Some "sasl";
     clowder.BrokerConfig.Cacert := Some "KAFKA PEM";
     clowder.BrokerConfig.Hostname := "kafka";
     clowder.BrokerConfig.Port := Some 9092;
     clowder.BrokerConfig.Sasl :=
       Some {| clowder.KafkaSASLConfig.Password := Some "secret";
               clowder.KafkaSASLConfig.SaslMechanism := Some "SCRAM-SHA-512";
               clowder.KafkaSASLConfig.Username := Some "carol" |};
     clowder.BrokerConfig.SecurityProtocol := protocol |}.

Definition anonymous : clowder.BrokerConfig.t :=
  {| clowder.BrokerConfig.Authtype := None;
     clowder.BrokerConfig.Cacert := None;
     clowder.BrokerConfig.Hostname := "kafka";
     clowder.BrokerConfig.Port := Some 9092;
     clowder.BrokerConfig.Sasl := None;
     clowder.BrokerConfig.SecurityProtocol := None |}.

Definition database (rdsCa : option string) : clowder.DatabaseConfig.t :=
  {| clowder.DatabaseConfig.Hostname := "db.internal";
     clowder.DatabaseConfig.Name := "exports";
     clowder.DatabaseConfig.Password := "hunter2";
     clowder.DatabaseConfig.Port := 5432;
     clowder.DatabaseConfig.RdsCa := rdsCa;
     clowder.DatabaseConfig.SslMode := "verify-full";
     clowder.DatabaseConfig.Username := "bob" |}.

Definition cloudwatch : clowder.CloudWatchConfig.t :=
  {| clowder.CloudWatchConfig.AccessKeyId := "CWID";
     clowder.CloudWatchConfig.LogGroup := "exports";
     clowder.CloudWatchConfig.Region := "us-east-1";
     clowder.CloudWatchConfig.SecretAccessKey := "CWSECRET" |}.

Definition objectStore : clowder.ObjectStoreConfig.t :=
  {| clowder.ObjectStoreConfig.Buckets := [bucket];
     clowder.ObjectStoreConfig.Hostname := "minio";
     clowder.ObjectStoreConfig.Port := 443;
     clowder.ObjectStoreConfig.Tls := true |}.

Definition appConfig (rdsCa : option string) (b : clowder.BrokerConfig.t)
  : clowder.AppConfig.t :=
  {| clowder.AppConfig.Database := Some (database rdsCa);
     clowder.AppConfig.Kafka := Some {| clowder.KafkaConfig.Brokers := [b] |};
     clowder.AppConfig.Logging := {| clowder.LoggingConfig.Cloudwatch := Some cloudwatch |};
     clowder.AppConfig.MetricsPort := 9090;
     clowder.AppConfig.ObjectStore := Some objectStore;
     clowder.AppConfig.PrivatePort := Some 10010;
     clowder.AppConfig.PublicPort := Some 8080 |}.

(** What a complete provider with this configuration yields. *)
Definition values (rdsCa : option string) (b : clowder.BrokerConfig.t)
    (path : option string) (ssl : option kafkaSSLConfig.t) : injection :=
  mkInjection (appConfig rdsCa b) 8080 10010 (database rdsCa) path b ssl
    cloudwatch objectStore bucket "AK" "SK".

Definition policy (protocol : string) : kafkaSSLConfig.t :=
  {| kafkaSSLConfig.CA := "/tmp/kafkaca.pem";
     kafkaSSLConfig.Username := "carol";
     kafkaSSLConfig.Password := "secret";
     kafkaSSLConfig.SASLMechanism := "SCRAM-SHA-512";
     kafkaSSLConfig.Protocol := protocol |}.

(** An active provider; [rdsCaError] and [kafkaCaError] are the errors of
    the two methods that write a CA bundle. *)
Definition provider (c : clowder.AppConfig.t) (rdsCaError kafkaCaError : option string)
  : clowder.t :=
  {| clowder.IsClowderEnabled := true;
     clowder.LoadedConfig := Some c;
     clowder.KafkaServers := ["kafka:9092"];
     clowder.ObjectBuckets := {[ "exports" := bucket ]};
     clowder.RdsCa := fun _ =>
       (match rdsCaError with None => "/tmp/rdsca.pem" | Some _ => "" end, rdsCaError);
     clowder.KafkaCa := fun _ _ =>
       (match kafkaCaError with None => "/tmp/kafkaca.pem" | Some _ => "" end, kafkaCaError) |}.

(** A database with a CA bundle and a broker that authenticates without
    naming a security protocol. *)
Definition on : clowder.t :=
  provider (appConfig (Some "RDS PEM") (broker None)) None None.

(** The same with a security protocol. *)
Definition explicit : clowder.t :=
  provider (appConfig (Some "RDS PEM") (broker (Some "SASL_PLAINTEXT"))) None None.

(** No CA bundle for the database, no authentication at the broker. *)
Definition plain : clowder.t :=
  provider (appConfig None anonymous) None None.

(** The CA bundle of the database cannot be written. *)
Definition failing : clowder.t :=
  provider (appConfig (Some "RDS PEM") (broker None)) (Some "permission denied") None.

(** The CA bundle of the broker cannot be written. *)
Definition failingKafka : clowder.t :=
  provider (appConfig (Some "RDS PEM") (broker None)) None (Some "permission denied").

Definition alice : gmap string string := {[ "PGSQL_USER" := "alice" ]}.

(** PGSQL_USER is set, to the empty string. *)
Definition blank : gmap string string := {[ "PGSQL_USER" := "" ]}.

(** PSKS is set; EXPORTS_PSKS and KAFKA_BROKERS are not. *)
Definition psks : gmap string string := {[ "PSKS" := "k1" ]}.

(** KAFKA_GROUP_ID is set. *)
Definition reports : gmap string string := {[ "KAFKA_GROUP_ID" := "reports" ]}.

(** The three ports are set. *)
Definition ports : gmap string string :=
  {[ "PUBLIC_PORT" := "1"; "METRICS_PORT" := "2"; "PRIVATE_PORT" := "3" ]}.


(** EXPORT_SERVICE_BUCKET names the bucket the sample platform registers. *)
Definition exports : gmap string string := {[ "EXPORT_SERVICE_BUCKET" := "exports" ]}.

(** Two brokers in one value, separated by a comma. *)
Definition brokers : gmap string string := {[ "KAFKA_BROKERS" := "k1:9092,k2:9092" ]}.

(** Two keys, and a comma at the end. *)
Definition keys : gmap string string := {[ "EXPORTS_PSKS" := "k1,k2," ]}.

(** No broker at all, and an object store without bucket. *)
Definition noBroker : clowder.t :=
  provider
    {| clowder.AppConfig.Database := Some (database None);
       clowder.AppConfig.Kafka := Some {| clowder.KafkaConfig.Brokers := [] |};
       clowder.AppConfig.Logging := {| clowder.LoggingConfig.Cloudwatch := Some cloudwatch |};
       clowder.AppConfig.MetricsPort := 9090;
       clowder.AppConfig.ObjectStore := Some objectStore;
       clowder.AppConfig.PrivatePort := Some 10010;
       clowder.AppConfig.PublicPort := Some 8080 |} None None.

(** The state a first call leaves with that environment and provider. *)
Definition resolved : package :=
  Eval vm_compute in snd (@Get strconv.decimal alice on initial).

End sample.

(** ** Reasoning about the effects *)

Section Heap.
Context {A : Type}.
Implicit Types (h t : list A) (x y : A).

Lemma lookup_holding h x t : (h ++ x :: t) !! length h = Some x.
Proof. induction h as [|a h IH]; [reflexivity | exact IH]. Qed.

Lemma insert_holding h x y t : <[length h := y]> (h ++ x :: t) = h ++ y :: t.
Proof. induction h as [|a h IH]; [reflexivity | cbn; f_equal; exact IH]. Qed.

End Heap.

Lemma bind_Ret {A B} (m : M A) (f : A -> M B) st a st' :
  m st = (Ret a, st') -> (m ≫= f) st = f a st'.
Proof. intros Hm. unfold mbind, M_bind. now rewrite Hm. Qed.

Lemma bind_Panic {A B} (m : M A) (f : A -> M B) st v st' :
  m st = (Panic v, st') -> (m ≫= f) st = (Panic v, st').
Proof. intros Hm. unfold mbind, M_bind. now rewrite Hm. Qed.

Lemma storeConfig_holding f h c t d :
  storeConfig f (holding h c t d) = (Ret tt, holding h (f c) t d).
Proof.
  unfold storeConfig, holding; cbn.
  now rewrite lookup_holding, insert_holding.
Qed.

Lemma new_holding o h c t d :
  new o (holding h c t d) = (Ret (length h + S (length t))%nat, holding h c (t ++ [o]) d).
Proof.
  unfold new, holding; cbn. rewrite <- app_assoc, length_app. reflexivity.
Qed.

Lemma pointsTo_holding h c t d : pointsTo (holding h c t d) (Some (length h)) = Some c.
Proof. unfold pointsTo, holding; cbn. now rewrite lookup_holding. Qed.

Section Stages.
Context `{!strconv.IntParser}.
Variable environ : gmap string string.
Variable platform : clowder.t.

(** Lines 128-168 allocate the object and fill it from the environment;
    the rest of the function runs on the state that results. *)
Lemma initialize_environment st :
  initialize environ platform st =
  (if clowder.IsClowderEnabled platform then inject environ platform else mret tt)
    (holding (heap st) (environmentStage environ) [] (doOnce st)).
Proof.
  unfold initialize.
  erewrite bind_Ret by reflexivity.
  erewrite bind_Ret by reflexivity.
  cbn [heap config doOnce].
  match goal with
  | |- _ {| heap := _ ++ [ObjExportConfig ?c]; config := _; doOnce := _ |} = _ =>
      change (mkPackage (heap st ++ [ObjExportConfig c]) (Some (length (heap st))) (doOnce st))
        with (holding (heap st) c [] (doOnce st))
  end.
  do 3 (erewrite bind_Ret by apply storeConfig_holding).
  reflexivity.
Qed.
End Stages.

Lemma deref_Some {A} (a : A) st : deref (Some a) st = (Ret a, st).
Proof. reflexivity. Qed.

Lemma deref_None {A} st : deref (@None A) st = (Panic nilDereference, st).
Proof. reflexivity. Qed.

Lemma first_cons {A} (a : A) l st : first (a :: l) st = (Ret a, st).
Proof. reflexivity. Qed.

Lemma first_nil {A} st :
  first (@nil A) st = (Panic "runtime error: index out of range [0] with length 0", st).
Proof. reflexivity. Qed.

Lemma mret_run {A} (a : A) st : (mret a : M A) st = (Ret a, st).
Proof. reflexivity. Qed.

Lemma panic_run {A} v st : (@panic A v) st = (Panic v, st).
Proof. reflexivity. Qed.

Lemma bind_assoc {A B C} (m : M A) (g : A -> M B) (f : B -> M C) st :
  ((m ≫= g) ≫= f) st = (m ≫= (fun a => g a ≫= f)) st.
Proof. unfold mbind, M_bind. destruct (m st) as [[a|v] st']; reflexivity. Qed.

(** One step of a run: the first action of a sequence returns or panics. *)
Ltac step :=
  lazymatch goal with
  | |- context [ (?m ≫= ?f) ?st ] =>
      lazymatch m with
      | _ ≫= _ => rewrite (bind_assoc _ _ f st)
      | deref (Some ?a) => rewrite (bind_Ret m f st _ _ (deref_Some a st))
      | deref None => rewrite (bind_Panic m f st _ _ (deref_None st))
      | first (?a :: ?l) => rewrite (bind_Ret m f st _ _ (first_cons a l st))
      | first [] => rewrite (bind_Panic m f st _ _ (first_nil st))
      | storeConfig ?g =>
          lazymatch st with
          | holding ?h ?c ?t ?d =>
              rewrite (bind_Ret m f st _ _ (storeConfig_holding g h c t d))
          end
      | new ?o =>
          lazymatch st with
          | holding ?h ?c ?t ?d => rewrite (bind_Ret m f st _ _ (new_holding o h c t d))
          end
      | mret ?a => rewrite (bind_Ret m f st _ _ (mret_run a st))
      | panic ?v => rewrite (bind_Panic m f st _ _ (panic_run v st))
      end
  end.

(** Where the values of a complete provider come from. *)
Lemma readInjection_Some platform r :
  readInjection platform = Some r ->
  clowder.LoadedConfig platform = Some (cfg r) /\
  clowder.AppConfig.PublicPort (cfg r) = Some (publicPort r) /\
  clowder.AppConfig.PrivatePort (cfg r) = Some (privatePort r) /\
  clowder.AppConfig.Database (cfg r) = Some (database r) /\
  writeRdsCa platform (cfg r) (database r) = Some (rdsCaPathValue r) /\
  (exists kafka,
     clowder.AppConfig.Kafka (cfg r) = Some kafka /\
     head (clowder.KafkaConfig.Brokers kafka) = Some (broker r)) /\
  brokerPolicy platform (cfg r) (broker r) = Some (sslConfig r) /\
  clowder.LoggingConfig.Cloudwatch (clowder.AppConfig.Logging (cfg r)) = Some (cloudwatch r) /\
  clowder.AppConfig.ObjectStore (cfg r) = Some (objectStore r) /\
  head (clowder.ObjectStoreConfig.Buckets (objectStore r)) = Some (bucket r) /\
  clowder.ObjectStoreBucket.AccessKey (bucket r) = Some (accessKey r) /\
  clowder.ObjectStoreBucket.SecretKey (bucket r) = Some (secretKey r).
Proof.
  unfold readInjection.
  repeat match goal with
    | |- match ?o with Some _ => _ | None => _ end = _ -> _ =>
        destruct o eqn:?; [| discriminate]
    end.
  intros [= <-]; cbn. repeat split; eauto.
Qed.

(** [need o x]: follow the pointer [o] to [x]; a nil pointer ends the run
    in a panic. *)
Tactic Notation "need" constr(o) "as" ident(x) :=
  destruct o as [x|] eqn:?; [repeat step | repeat step; eauto].

Ltac decided b :=
  first [ rewrite (bool_decide_eq_true_2 b) by done
        | rewrite (bool_decide_eq_false_2 b) by (intros Hn; now apply Hn) ].

Section Injection.
Context `{!strconv.IntParser}.
Variable environ : gmap string string.
Variable platform : clowder.t.

(** The platform stage returns exactly when [readInjection] has a value,
    and then leaves the object [injected] describes; otherwise it panics,
    with [config] still pointing to an object. *)
Lemma inject_holding h c t d :
  match readInjection platform with
  | Some r =>
      inject environ platform (holding h c t d) =
      (Ret tt,
       holding h
         (injected platform r (viper.GetString environ (options environ) "EXPORT_SERVICE_BUCKET")
            (rdsCaPath r (length h) t) (logging r (length h) t) c)
         (allocated r t) d)
  | None =>
      exists v c' t', inject environ platform (holding h c t d) = (Panic v, holding h c' t' d)
  end.
Proof.
  unfold inject, readInjection.
  need (clowder.LoadedConfig platform) as cfg.
  need (clowder.AppConfig.PublicPort cfg) as publicPort.
  need (clowder.AppConfig.PrivatePort cfg) as privatePort.
  unfold getRdsCaPath. repeat step.
  need (clowder.AppConfig.Database cfg) as database.
  unfold writeRdsCa.
  destruct (clowder.DatabaseConfig.RdsCa database) as [ca|] eqn:Hca;
    [ decided (Some ca ≠ None);
      destruct (clowder.RdsCa platform cfg) as [path [e|]] eqn:Hrds;
      [ decided (Some e ≠ None); repeat step; eauto
      | decided (@None string ≠ None); repeat step ]
    | decided (@None string ≠ None); repeat step ].
  all: need (clowder.AppConfig.Kafka cfg) as kafka.
  all: destruct (clowder.KafkaConfig.Brokers kafka) as [|broker brokers] eqn:Hbrokers;
    cbn [head]; [repeat step; eauto | repeat step].
  all: unfold brokerPolicy.
  all: destruct (clowder.BrokerConfig.Authtype broker) as [authtype|] eqn:Hauth;
    [ decided (Some authtype ≠ None);
      destruct (clowder.KafkaCa platform cfg [broker]) as [caPath [e|]] eqn:Hkca;
      [ repeat step; eauto
      | need (clowder.BrokerConfig.Sasl broker) as sasl;
        need (clowder.KafkaSASLConfig.Username sasl) as username;
        need (clowder.KafkaSASLConfig.Password sasl) as password;
        need (clowder.KafkaSASLConfig.SaslMechanism sasl) as saslMechanism ]
    | decided (@None string ≠ None); repeat step ].
  all: need (clowder.LoggingConfig.Cloudwatch (clowder.AppConfig.Logging cfg)) as cloudwatch.
  all: need (clowder.AppConfig.ObjectStore cfg) as objectStore.
  all: destruct (clowder.ObjectStoreConfig.Buckets objectStore) as [|bucket buckets] eqn:Hbuckets;
    cbn [head]; [repeat step; eauto | repeat step].
  all: need (clowder.ObjectStoreBucket.AccessKey bucket) as accessKey.
  all: need (clowder.ObjectStoreBucket.SecretKey bucket) as secretKey.
  all: rewrite storeConfig_holding; reflexivity.
Qed.
End Injection.

(** ** The accessor as a whole *)

Section Accessor.
Context `{!strconv.IntParser}.
Variable environ : gmap string string.
Variable platform : clowder.t.

(** A call after [doOnce] has run reads [config] and nothing else. *)
Lemma Get_done st :
  doOnce st = true -> Get environ platform st = (Ret (config st), st).
Proof.
  intros Hd. unfold Get, sync.Do, mbind, M_bind, readConfig. now rewrite Hd.
Qed.

(** Whatever a call does, [doOnce] has run when it is over, and a value
    that is returned is the one of [config]. *)
Lemma Get_after st r st' :
  Get environ platform st = (r, st') ->
  doOnce st' = true /\ forall p, r = Ret p -> p = config st'.
Proof.
  unfold Get, sync.Do, mbind, M_bind, readConfig.
  destruct (doOnce st) eqn:Hd.
  - intros [= <- <-]. split; [exact Hd | now intros p [= <-]].
  - destruct (initialize environ platform st) as [[[]|v] st1]; cbn;
      intros [= <- <-]; (split; [reflexivity |]); [now intros p [= <-] | discriminate].
Qed.

Lemma Get_first st :
  doOnce st = false ->
  Get environ platform st =
  match
    (if clowder.IsClowderEnabled platform then inject environ platform else mret tt)
      (holding (heap st) (environmentStage environ) [] false)
  with
  | (Ret _, st') => (Ret (config st'), mkPackage (heap st') (config st') true)
  | (Panic v, st') => (Panic v, mkPackage (heap st') (config st') true)
  end.
Proof.
  intros Hd. unfold Get, sync.Do, mbind, M_bind, readConfig.
  rewrite Hd, initialize_environment, Hd.
  generalize (holding (heap st) (environmentStage environ) [] false).
  generalize (if clowder.IsClowderEnabled platform then inject environ platform else mret tt).
  intros m st0. destruct (m st0) as [[[]|v] st1]; reflexivity.
Qed.

(** The first call when the provider is not active. *)
Lemma Get_inactive st :
  doOnce st = false ->
  clowder.IsClowderEnabled platform = false ->
  Get environ platform st =
  (Ret (Some (length (heap st))), holding (heap st) (environmentStage environ) [] true).
Proof.
  intros Hd Hoff. rewrite Get_first by exact Hd. now rewrite Hoff.
Qed.

(** The first call when the provider is active and complete. *)
Lemma Get_active st r :
  doOnce st = false ->
  clowder.IsClowderEnabled platform = true ->
  readInjection platform = Some r ->
  Get environ platform st =
  (Ret (Some (length (heap st))),
   holding (heap st)
     (injected platform r (viper.GetString environ (options environ) "EXPORT_SERVICE_BUCKET")
        (rdsCaPath r (length (heap st)) []) (logging r (length (heap st)) [])
        (environmentStage environ))
     (allocated r []) true).
Proof.
  intros Hd Hon Hr. rewrite Get_first by exact Hd. rewrite Hon.
  pose proof (inject_holding environ platform (heap st) (environmentStage environ) [] false) as Hi.
  rewrite Hr in Hi. now rewrite Hi.
Qed.

(** The first call when the provider is active and incomplete. *)
Lemma Get_incomplete st :
  doOnce st = false ->
  clowder.IsClowderEnabled platform = true ->
  readInjection platform = None ->
  exists v c t, Get environ platform st = (Panic v, holding (heap st) c t true).
Proof.
  intros Hd Hon Hr. rewrite Get_first by exact Hd. rewrite Hon.
  pose proof (inject_holding environ platform (heap st) (environmentStage environ) [] false) as Hi.
  rewrite Hr in Hi. destruct Hi as (v & c & t & ->). now exists v, c, t.
Qed.

(** With an active provider the first call returns exactly when the
    provider is complete. *)
Lemma Get_returns st :
  doOnce st = false ->
  clowder.IsClowderEnabled platform = true ->
  (exists p st', Get environ platform st = (Ret p, st')) <-> is_Some (readInjection platform).
Proof.
  intros Hd Hon. split.
  - intros (p & st' & Hg). destruct (readInjection platform) as [r|] eqn:Hr; [eauto |].
    destruct (Get_incomplete st Hd Hon Hr) as (v & c & t & Hp). congruence.
  - intros [r Hr]. rewrite (Get_active st r Hd Hon Hr). eauto.
Qed.

End Accessor.

(** ** Reading a key *)

Section Lookups.
Context `{!strconv.IntParser}.
Variable environ : gmap string string.

Lemma getEnv_unset key : environ !! key = None -> viper.getEnv environ key = None.
Proof. intros Hk. unfold viper.getEnv, os.LookupEnv. now rewrite Hk. Qed.

Lemma getEnv_set key v :
  environ !! key = Some v -> v ≠ "" -> viper.getEnv environ key = Some v.
Proof.
  intros Hk Hv. unfold viper.getEnv, os.LookupEnv. rewrite Hk.
  destruct (String.eqb_spec v ""); [contradiction | reflexivity].
Qed.

Lemma Getenv_unset key : environ !! key = None -> os.Getenv environ key = "".
Proof. intros Hk. unfold os.Getenv, os.LookupEnv. now rewrite Hk. Qed.

Lemma getEnv_Getenv key : os.Getenv environ key = "" -> viper.getEnv environ key = None.
Proof.
  unfold viper.getEnv, os.Getenv, os.LookupEnv.
  destruct (environ !! key) as [v|]; [cbn; now intros -> | reflexivity].
Qed.

(** A key of [options]: the environment variable of that name in upper
    case when it has a value, else the registered default. *)
Lemma Get_options key lcaseKey envKey :
  strings.ToLower key = lcaseKey ->
  strings.ToUpper lcaseKey = envKey ->
  viper.Get environ (options environ) key =
  match viper.getEnv environ envKey with
  | Some v => Some (VString v)
  | None => viper.defaults (options environ) !! lcaseKey
  end.
Proof. intros <- <-. reflexivity. Qed.

Lemma Get_kubenv key lcaseKey envKey :
  strings.ToLower key = lcaseKey ->
  strings.ToUpper lcaseKey = envKey ->
  viper.Get environ kubenv key =
  match viper.getEnv environ envKey with
  | Some v => Some (VString v)
  | None => None
  end.
Proof.
  intros <- <-. unfold viper.Get, viper.find, kubenv; cbn.
  destruct (viper.getEnv _ _); [reflexivity | apply lookup_empty].
Qed.

End Lookups.

(** [getters]: unfold the typed getters of the goal down to the environment
    variable and the default of each key. *)
Ltac getters :=
  unfold viper.GetInt, viper.GetString, viper.GetBool, viper.GetStringSlice;
  repeat match goal with
    | |- context [viper.Get ?e (options ?e) ?key] =>
        let l := eval vm_compute in (strings.ToLower key) in
        let u := eval vm_compute in (strings.ToUpper l) in
        rewrite (Get_options e key l u eq_refl eq_refl)
    | |- context [viper.Get ?e kubenv ?key] =>
        let l := eval vm_compute in (strings.ToLower key) in
        let u := eval vm_compute in (strings.ToUpper l) in
        rewrite (Get_kubenv e key l u eq_refl eq_refl)
    end.

(** [registered]: replace the lookups of constant defaults by their
    values. *)
Ltac registered :=
  repeat match goal with
    | |- context [viper.defaults (options ?e) !! "psks"] =>
        change (viper.defaults (options e) !! "psks")
          with (Some (VStrings (strings.Split (os.Getenv e "EXPORTS_PSKS") ",")))
    | |- context [viper.defaults (options ?e) !! "kafka_brokers"] =>
        change (viper.defaults (options e) !! "kafka_brokers")
          with (Some (VStrings (strings.Split (os.Getenv e "KAFKA_BROKERS") ",")))
    | |- context [viper.defaults (options ?e) !! ?k] =>
        let v := eval vm_compute in (viper.defaults (options e) !! k) in
        change (viper.defaults (options e) !! k) with v
    end.

Lemma append_empty (s : string) : s +:+ "" = s.
Proof.
  induction s as [|a s IH]; [reflexivity |].
  change (String a (s +:+ "") = String a s). now rewrite IH.
Qed.

Section Overrides.
Context `{!strconv.IntParser}.
Variables environ environ' : gmap string string.

Lemma Get_options_agree key lcaseKey envKey :
  strings.ToLower key = lcaseKey ->
  strings.ToUpper lcaseKey = envKey ->
  viper.getEnv environ' envKey = viper.getEnv environ envKey ->
  viper.defaults (options environ') !! lcaseKey =
  viper.defaults (options environ) !! lcaseKey ->
  viper.Get environ' (options environ') key = viper.Get environ (options environ) key.
Proof.
  intros Hl Hu He Hdef.
  rewrite (Get_options environ' key _ _ Hl Hu), (Get_options environ key _ _ Hl Hu).
  now rewrite He, Hdef.
Qed.

Lemma Get_kubenv_agree key lcaseKey envKey :
  strings.ToLower key = lcaseKey ->
  strings.ToUpper lcaseKey = envKey ->
  viper.getEnv environ' envKey = viper.getEnv environ envKey ->
  viper.Get environ' kubenv key = viper.Get environ kubenv key.
Proof.
  intros Hl Hu He.
  rewrite (Get_kubenv environ' key _ _ Hl Hu), (Get_kubenv environ key _ _ Hl Hu).
  now rewrite He.
Qed.

Lemma getEnv_agree key k :
  (forall k, k ≠ key -> environ' !! k = environ !! k) ->
  k ≠ key -> viper.getEnv environ' k = viper.getEnv environ k.
Proof. intros Hagree Hk. unfold viper.getEnv, os.LookupEnv. now rewrite Hagree. Qed.

Lemma Getenv_agree key k :
  (forall k, k ≠ key -> environ' !! k = environ !! k) ->
  k ≠ key -> os.Getenv environ' k = os.Getenv environ k.
Proof. intros Hagree Hk. unfold os.Getenv, os.LookupEnv. now rewrite Hagree. Qed.

(** [agreeing env def]: rewrite the reads of [environ'] into reads of
    [environ]; [env] proves that a variable has the same value in both,
    [def] that a default is the same. *)
Ltac agreeing env def :=
  unfold viper.GetInt, viper.GetString, viper.GetBool, viper.GetStringSlice;
  repeat match goal with
    | |- context [viper.Get environ' (options environ') ?K] =>
        let l := eval vm_compute in (strings.ToLower K) in
        let u := eval vm_compute in (strings.ToUpper l) in
        rewrite (Get_options_agree K l u eq_refl eq_refl); [ | env | registered; def ]
    | |- context [viper.Get environ' kubenv ?K] =>
        let l := eval vm_compute in (strings.ToLower K) in
        let u := eval vm_compute in (strings.ToUpper l) in
        rewrite (Get_kubenv_agree K l u eq_refl eq_refl); [ | env ]
    end.

(** A variable the field is not computed from does not change it. *)
Lemma environmentStage_agree key f :
  (forall k, k ≠ key -> environ' !! k = environ !! k) ->
  key ∉ variables f ->
  fieldValue f (environmentStage environ') = fieldValue f (environmentStage environ).
Proof.
  intros Hagree Hf.
  destruct f; cbn [variables] in Hf;
    repeat (apply not_elem_of_cons in Hf as [? Hf]);
    cbn [fieldValue environmentStage ExportConfig.Hostname ExportConfig.PublicPort
         ExportConfig.MetricsPort ExportConfig.PrivatePort ExportConfig.LogLevel
         ExportConfig.Debug ExportConfig.OpenAPIPublicPath ExportConfig.OpenAPIPrivatePath
         ExportConfig.Psks ExportConfig.ExportExpiryDays ExportConfig.DBConfig
         ExportConfig.StorageConfig ExportConfig.KafkaConfig
         dbConfig.User dbConfig.Password dbConfig.Hostname dbConfig.Port dbConfig.Name
         storageConfig.Endpoint storageConfig.AccessKey storageConfig.SecretKey
         storageConfig.UseSSL kafkaConfig.Brokers kafkaConfig.GroupID
         kafkaConfig.ExportsTopic kafkaConfig.EventSource kafkaConfig.EventSpecVersion
         kafkaConfig.EventType kafkaConfig.EventDataSchema].
  all: agreeing ltac:(apply (getEnv_agree key); [exact Hagree | congruence])
                ltac:(rewrite ?(Getenv_agree key _ Hagree) by congruence; reflexivity).
  all: reflexivity.
Qed.

(** Environments in which every variable has the same value, or in both
    none, give the same snapshot. *)
Lemma environmentStage_same :
  (forall k, viper.getEnv environ' k = viper.getEnv environ k) ->
  (forall k, os.Getenv environ' k = os.Getenv environ k) ->
  environmentStage environ' = environmentStage environ.
Proof.
  intros Hget Hgetenv. unfold environmentStage.
  agreeing ltac:(apply Hget) ltac:(rewrite ?Hgetenv; reflexivity).
  reflexivity.
Qed.

(** A variable with a value that is not empty decides the field it
    belongs to. *)
Lemma environmentStage_override key v f :
  environ !! key = Some v -> v ≠ "" ->
  variables f = [key] ->
  fieldValue f (environmentStage environ) = converted f v.
Proof.
  intros Hk Hv Hf. pose proof (getEnv_set environ key v Hk Hv) as Henv.
  destruct f; cbn [variables] in Hf; try discriminate Hf;
    injection Hf as Hf; subst key;
    cbn [fieldValue converted environmentStage ExportConfig.Hostname ExportConfig.PublicPort
         ExportConfig.MetricsPort ExportConfig.PrivatePort ExportConfig.LogLevel
         ExportConfig.Debug ExportConfig.OpenAPIPublicPath ExportConfig.OpenAPIPrivatePath
         ExportConfig.Psks ExportConfig.ExportExpiryDays ExportConfig.DBConfig
         ExportConfig.StorageConfig ExportConfig.KafkaConfig
         dbConfig.User dbConfig.Password dbConfig.Hostname dbConfig.Port dbConfig.Name
         storageConfig.Endpoint storageConfig.AccessKey storageConfig.SecretKey
         storageConfig.UseSSL kafkaConfig.Brokers kafkaConfig.GroupID
         kafkaConfig.ExportsTopic kafkaConfig.EventSource kafkaConfig.EventSpecVersion
         kafkaConfig.EventType kafkaConfig.EventDataSchema];
    getters; rewrite Henv; reflexivity.
Qed.

End Overrides.

(** A variable that is set to the empty string reads like one that is not
    set. *)
Lemma delete_empty (environ : gmap string string) (key : string) :
  environ !! key = Some "" ->
  (forall k, viper.getEnv (delete key environ) k = viper.getEnv environ k) /\
  (forall k, os.Getenv (delete key environ) k = os.Getenv environ k).
Proof.
  intros Hk. split; intros k; unfold viper.getEnv, os.Getenv, os.LookupEnv;
    destruct (decide (k = key)) as [-> | Hne].
  - now rewrite lookup_delete_eq, Hk.
  - now rewrite lookup_delete_ne.
  - now rewrite lookup_delete_eq, Hk.
  - now rewrite lookup_delete_ne.
Qed.

(** ** The objects of the platform stage *)

Lemma lookup_after {A} (h t : list A) (x : A) (n : nat) :
  (h ++ x :: t) !! (length h + S n)%nat = t !! n.
Proof. induction h as [|a h IH]; [reflexivity | exact IH]. Qed.

Lemma logging_allocated r h c d :
  heap (holding h c (allocated r []) d) !! logging r (length h) [] =
  Some (ObjLoggingConfig
    {| loggingConfig.AccessKeyID := clowder.CloudWatchConfig.AccessKeyId (cloudwatch r);
       loggingConfig.SecretAccessKey := clowder.CloudWatchConfig.SecretAccessKey (cloudwatch r);
       loggingConfig.LogGroup := clowder.CloudWatchConfig.LogGroup (cloudwatch r);
       loggingConfig.Region := clowder.CloudWatchConfig.Region (cloudwatch r) |}).
Proof.
  unfold holding, logging, allocated; cbn [heap].
  destruct (rdsCaPathValue r); rewrite lookup_after; reflexivity.
Qed.

Lemma rdsCaPath_allocated r h c d l :
  rdsCaPath r (length h) [] = Some l ->
  exists path,
    rdsCaPathValue r = Some path /\
    heap (holding h c (allocated r []) d) !! l = Some (ObjString path).
Proof.
  unfold holding, rdsCaPath, allocated; cbn [heap].
  destruct (rdsCaPathValue r) as [path|]; [| discriminate].
  intros [= <-]. exists path. split; [reflexivity |].
  rewrite lookup_after. reflexivity.
Qed.

(** What [writeRdsCa] says about the bundle and the file. *)
Lemma writeRdsCa_Some platform c db o :
  writeRdsCa platform c db = Some o ->
  match o with
  | Some path =>
      clowder.DatabaseConfig.RdsCa db ≠ None /\ clowder.RdsCa platform c = (path, None)
  | None => clowder.DatabaseConfig.RdsCa db = None
  end.
Proof.
  unfold writeRdsCa.
  destruct (clowder.DatabaseConfig.RdsCa db) as [ca|].
  - destruct (clowder.RdsCa platform c) as [path [e|]]; [discriminate |].
    intros [= <-]. split; [discriminate | reflexivity].
  - now intros [= <-].
Qed.

Section Failure.
Context `{!strconv.IntParser}.
Variable environ : gmap string string.
Variable platform : clowder.t.

(** A failing write of the database's bundle ends the platform stage at
    line 182: only the ports have been assigned. *)
Lemma inject_rdsCaFails h x t d e :
  rdsCaFails platform e ->
  exists c publicPort privatePort,
    clowder.LoadedConfig platform = Some c /\
    clowder.AppConfig.PublicPort c = Some publicPort /\
    clowder.AppConfig.PrivatePort c = Some privatePort /\
    inject environ platform (holding h x t d) =
    (Panic ("RDS CA failed to write: " +:+ e),
     holding h
       (interrupted x publicPort (clowder.AppConfig.MetricsPort c) privatePort
          (ExportConfig.DBConfig x) (kafkaConfig.Brokers (ExportConfig.KafkaConfig x)))
       t d).
Proof.
  intros (c & publicPort & privatePort & db & Hc & Hpublic & Hprivate & Hdb & Hca & He).
  exists c, publicPort, privatePort. do 3 (split; [assumption |]).
  unfold inject. rewrite Hc. step. rewrite Hpublic. repeat step.
  rewrite Hprivate. repeat step.
  unfold getRdsCaPath. repeat step. rewrite Hdb. repeat step.
  decided (clowder.DatabaseConfig.RdsCa db ≠ None).
  destruct (clowder.RdsCa platform c) as [path err]. cbn [snd] in He. subst err.
  decided (Some e ≠ None). repeat step.
  destruct x as [? ? ? ? ? ? ? ? ? [] ? ? ? ?]. reflexivity.
Qed.

(** A failing write of the broker's bundle ends the platform stage at
    line 202: the ports, the database configuration (with the file of its
    bundle, if it declares one) and the broker addresses have been
    assigned. *)
Lemma inject_kafkaCaFails h x t d :
  kafkaCaFails platform ->
  exists c publicPort privatePort db rds,
    clowder.LoadedConfig platform = Some c /\
    clowder.AppConfig.PublicPort c = Some publicPort /\
    clowder.AppConfig.PrivatePort c = Some privatePort /\
    clowder.AppConfig.Database c = Some db /\
    writeRdsCa platform c db = Some rds /\
    inject environ platform (holding h x t d) =
    (Panic "Kafka CA failed to write",
     holding h
       (interrupted x publicPort (clowder.AppConfig.MetricsPort c) privatePort
          {| dbConfig.User := clowder.DatabaseConfig.Username db;
             dbConfig.Password := clowder.DatabaseConfig.Password db;
             dbConfig.Hostname := clowder.DatabaseConfig.Hostname db;
             dbConfig.Port := fmt.Sprint (fmt.Int (clowder.DatabaseConfig.Port db));
             dbConfig.Name := clowder.DatabaseConfig.Name db;
             dbConfig.SSLCfg :=
               {| dbSSLConfig.SSLMode := clowder.DatabaseConfig.SslMode db;
                  dbSSLConfig.RdsCa :=
                    match rds with
                    | Some _ => Some (length h + S (length t))%nat
                    | None => None
                    end |} |}
          (clowder.KafkaServers platform))
       (match rds with Some path => t ++ [ObjString path] | None => t end) d).
Proof.
  intros (c & publicPort & privatePort & db & kafka & b &
          Hc & Hpublic & Hprivate & Hdb & Hrds & Hkafka & Hb & Hauth & He).
  exists c, publicPort, privatePort, db.
  assert (Hw : exists rds, writeRdsCa platform c db = Some rds).
  { unfold writeRdsCa. destruct (clowder.DatabaseConfig.RdsCa db) as [ca|]; [| eauto].
    destruct (clowder.RdsCa platform c) as [path err]. cbn [snd] in Hrds.
    rewrite Hrds by discriminate. eauto. }
  destruct Hw as [rds Hw]. exists rds. do 5 (split; [assumption |]).
  unfold inject. rewrite Hc. step. rewrite Hpublic. repeat step.
  rewrite Hprivate. repeat step.
  unfold getRdsCaPath. repeat step. rewrite Hdb. repeat step.
  unfold writeRdsCa in Hw.
  destruct (clowder.DatabaseConfig.RdsCa db) as [ca|];
    [ decided (Some ca ≠ None);
      destruct (clowder.RdsCa platform c) as [path [err|]]; [discriminate |];
      decided (@None string ≠ None); repeat step
    | decided (@None string ≠ None); repeat step ].
  all: injection Hw as <-.
  all: rewrite Hkafka; repeat step.
  all: destruct (clowder.KafkaConfig.Brokers kafka) as [|b' brokers]; [discriminate |].
  all: injection Hb as ->; repeat step.
  all: decided (clowder.BrokerConfig.Authtype b ≠ None).
  all: destruct (clowder.KafkaCa platform c [b]) as [caPath [err|]]; [| now cbn in He].
  all: repeat step.
  all: destruct x as [? ? ? ? ? ? ? ? ? [] ? ? ? ?]; reflexivity.
Qed.

(** The two failures exclude each other, and the error of the first is
    determined by the provider. *)
Lemma rdsCaFails_not_kafkaCaFails e : rdsCaFails platform e -> ~ kafkaCaFails platform.
Proof.
  intros (c & ? & ? & db & Hc & _ & _ & Hdb & Hca & He)
         (c' & ? & ? & db' & ? & ? & Hc' & _ & _ & Hdb' & Hrds & _).
  rewrite Hc in Hc'. injection Hc' as <-. rewrite Hdb in Hdb'. injection Hdb' as <-.
  rewrite (Hrds Hca) in He. discriminate.
Qed.

Lemma rdsCaFails_error e e' : rdsCaFails platform e -> rdsCaFails platform e' -> e = e'.
Proof.
  intros (c & ? & ? & ? & Hc & _ & _ & _ & _ & He) (c' & ? & ? & ? & Hc' & _ & _ & _ & _ & He').
  rewrite Hc in Hc'. injection Hc' as <-. rewrite He in He'. now injection He'.
Qed.

End Failure.

(** ** The properties of the specification *)

(** C1, as amended. With an active and complete provider the database
    configuration and the object-storage configuration are replaced as a
    whole by values of the platform (the bucket is the requested name the
    platform registers under the name EXPORT_SERVICE_BUCKET gives); of the
    broker configuration the platform replaces the broker list and, through
    the first broker, the SSL policy, while group id, topic and event
    metadata keep the values the same environment gives without a platform;
    the logging configuration, nil without a platform, points to the
    platform's CloudWatch values.  The values [r] are those [readInjection]
    collects from the provider alone. *)
Theorem platform_precedence `{!strconv.IntParser}
    (environ : gmap string string) (platform : clowder.t) (st : package) (r : injection) :
  doOnce st = false ->
  clowder.IsClowderEnabled platform = true ->
  readInjection platform = Some r ->
  exists p st' c rdsCa l,
    Get environ platform st = (Ret p, st') /\ pointsTo st' p = Some c /\
    ExportConfig.DBConfig c =
      {| dbConfig.User := clowder.DatabaseConfig.Username (database r);
         dbConfig.Password := clowder.DatabaseConfig.Password (database r);
         dbConfig.Hostname := clowder.DatabaseConfig.Hostname (database r);
         dbConfig.Port := strconv.Itoa (clowder.DatabaseConfig.Port (database r));
         dbConfig.Name := clowder.DatabaseConfig.Name (database r);
         dbConfig.SSLCfg :=
           {| dbSSLConfig.RdsCa := rdsCa;
              dbSSLConfig.SSLMode := clowder.DatabaseConfig.SslMode (database r) |} |} /\
    ExportConfig.StorageConfig c =
      {| storageConfig.Bucket :=
           clowder.ObjectStoreBucket.RequestedName
             (default clowder.ObjectStoreBucket.zero
                (clowder.ObjectBuckets platform
                   !! viper.GetString environ (options environ) "EXPORT_SERVICE_BUCKET"));
         storageConfig.Endpoint :=
           buildBaseHttpUrl (clowder.ObjectStoreConfig.Tls (objectStore r))
             (clowder.ObjectStoreConfig.Hostname (objectStore r))
             (clowder.ObjectStoreConfig.Port (objectStore r));
         storageConfig.AccessKey := accessKey r;
         storageConfig.SecretKey := secretKey r;
         storageConfig.UseSSL := clowder.ObjectStoreConfig.Tls (objectStore r) |} /\
    kafkaConfig.Brokers (ExportConfig.KafkaConfig c) = clowder.KafkaServers platform /\
    kafkaConfig.SSLConfig (ExportConfig.KafkaConfig c) =
      default kafkaSSLConfig.zero (sslConfig r) /\
    ExportConfig.Logging c = Some l /\
    heap st' !! l =
      Some (ObjLoggingConfig
        {| loggingConfig.AccessKeyID := clowder.CloudWatchConfig.AccessKeyId (cloudwatch r);
           loggingConfig.SecretAccessKey :=
             clowder.CloudWatchConfig.SecretAccessKey (cloudwatch r);
           loggingConfig.LogGroup := clowder.CloudWatchConfig.LogGroup (cloudwatch r);
           loggingConfig.Region := clowder.CloudWatchConfig.Region (cloudwatch r) |}) /\
    forall inactive,
      clowder.IsClowderEnabled inactive = false ->
      exists p0 st0 c0,
        Get environ inactive st = (Ret p0, st0) /\ pointsTo st0 p0 = Some c0 /\
        ExportConfig.Logging c0 = None /\
        kafkaConfig.GroupID (ExportConfig.KafkaConfig c) =
          kafkaConfig.GroupID (ExportConfig.KafkaConfig c0) /\
        kafkaConfig.ExportsTopic (ExportConfig.KafkaConfig c) =
          kafkaConfig.ExportsTopic (ExportConfig.KafkaConfig c0) /\
        kafkaConfig.EventSource (ExportConfig.KafkaConfig c) =
          kafkaConfig.EventSource (ExportConfig.KafkaConfig c0) /\
        kafkaConfig.EventSpecVersion (ExportConfig.KafkaConfig c) =
          kafkaConfig.EventSpecVersion (ExportConfig.KafkaConfig c0) /\
        kafkaConfig.EventType (ExportConfig.KafkaConfig c) =
          kafkaConfig.EventType (ExportConfig.KafkaConfig c0) /\
        kafkaConfig.EventDataSchema (ExportConfig.KafkaConfig c) =
          kafkaConfig.EventDataSchema (ExportConfig.KafkaConfig c0).
Proof.
  intros Hd Hon Hr.
  rewrite (Get_active environ platform st r Hd Hon Hr).
  eexists _, _, _, _, _. split; [reflexivity |]. split; [apply pointsTo_holding |].
  split; [reflexivity |]. split; [reflexivity |]. split; [reflexivity |].
  split; [reflexivity |]. split; [reflexivity |].
  split; [apply logging_allocated |].
  intros inactive Hoff.
  rewrite (Get_inactive environ inactive st Hd Hoff).
  eexists _, _, _. split; [reflexivity |]. split; [apply pointsTo_holding |].
  repeat (split; [reflexivity |]). reflexivity.
Qed.

Lemma platform_precedence_witness :
  exists p st' c,
    @Get strconv.decimal sample.alice sample.on initial = (Ret p, st') /\
    pointsTo st' p = Some c /\
    dbConfig.User (ExportConfig.DBConfig c) = "bob" /\
    kafkaConfig.Brokers (ExportConfig.KafkaConfig c) = ["kafka:9092"].
Proof.
  pose proof (@platform_precedence strconv.decimal sample.alice sample.on initial
                (sample.values (Some "RDS PEM") (sample.broker None)
                   (Some "/tmp/rdsca.pem") (Some (sample.policy "sasl_ssl")))
                eq_refl eq_refl eq_refl) as Hw.
  destruct Hw as (p & st' & c & rdsCa & l & Hg & Hp & Hdb & _ & Hbrokers & _).
  exists p, st', c. split; [exact Hg |]. split; [exact Hp |].
  split; [now rewrite Hdb | exact Hbrokers].
Defined.

(** C1 as stated fails for the broker configuration: on one and the same
    platform the consumer group is the one of the environment, "export" by
    default and "reports" when KAFKA_GROUP_ID says so. *)
Lemma broker_group_from_environment :
  exists p1 st1 c1 p2 st2 c2,
    @Get strconv.decimal ∅ sample.on initial = (Ret p1, st1) /\
    pointsTo st1 p1 = Some c1 /\
    @Get strconv.decimal sample.reports sample.on initial = (Ret p2, st2) /\
    pointsTo st2 p2 = Some c2 /\
    kafkaConfig.GroupID (ExportConfig.KafkaConfig c1) = "export" /\
    kafkaConfig.GroupID (ExportConfig.KafkaConfig c2) = "reports" /\
    ExportConfig.KafkaConfig c1 ≠ ExportConfig.KafkaConfig c2.
Proof.
  eexists _, _, _, _, _, _.
  split; [vm_compute; reflexivity |]. split; [vm_compute; reflexivity |].
  split; [vm_compute; reflexivity |]. split; [vm_compute; reflexivity |].
  split; [reflexivity |]. split; [reflexivity | discriminate].
Qed.

(** C2. For every TLS flag, host and port the endpoint is the scheme
    ("https" with TLS, "http" without), "://", the host, ":" and the port in
    decimal; (false, "localhost", 9099) gives "http://localhost:9099" and
    (true, "minio", 443) gives "https://minio:443"; the environment stage
    and the platform stage both store the endpoint this function derives,
    from the three values of the environment and from the three values of
    the platform's object store. *)
Theorem endpoint_derivation `{!strconv.IntParser} :
  (forall (useTLS : bool) (host : string) (port : Z),
     buildBaseHttpUrl useTLS host port =
     (if useTLS then "https" else "http") +:+ "://" +:+ host +:+ ":" +:+ strconv.Itoa port) /\
  buildBaseHttpUrl false "localhost" 9099 = "http://localhost:9099" /\
  buildBaseHttpUrl true "minio" 443 = "https://minio:443" /\
  (forall environ platform st,
     doOnce st = false ->
     clowder.IsClowderEnabled platform = false ->
     exists p st' c,
       Get environ platform st = (Ret p, st') /\ pointsTo st' p = Some c /\
       storageConfig.Endpoint (ExportConfig.StorageConfig c) =
       buildBaseHttpUrl (viper.GetBool environ (options environ) "MINIO_SSL")
         (viper.GetString environ (options environ) "MINIO_HOST")
         (viper.GetInt environ (options environ) "MINIO_PORT")) /\
  (forall environ platform st r,
     doOnce st = false ->
     clowder.IsClowderEnabled platform = true ->
     readInjection platform = Some r ->
     exists p st' c,
       Get environ platform st = (Ret p, st') /\ pointsTo st' p = Some c /\
       clowder.AppConfig.ObjectStore (cfg r) = Some (objectStore r) /\
       storageConfig.Endpoint (ExportConfig.StorageConfig c) =
       buildBaseHttpUrl (clowder.ObjectStoreConfig.Tls (objectStore r))
         (clowder.ObjectStoreConfig.Hostname (objectStore r))
         (clowder.ObjectStoreConfig.Port (objectStore r))).
Proof.
  split; [|split; [reflexivity | split; [reflexivity | split]]].
  - intros useTLS host port. unfold buildBaseHttpUrl. cbn.
    rewrite append_empty. now destruct useTLS.
  - intros environ platform st Hd Hoff.
    rewrite (Get_inactive environ platform st Hd Hoff).
    eexists _, _, _. split; [reflexivity |]. split; [apply pointsTo_holding | reflexivity].
  - intros environ platform st r Hd Hon Hr.
    rewrite (Get_active environ platform st r Hd Hon Hr).
    eexists _, _, _. split; [reflexivity |]. split; [apply pointsTo_holding |].
    split; [| reflexivity].
    apply (readInjection_Some platform r Hr).
Qed.

Lemma endpoint_derivation_witness :
  (exists p st' c,
     @Get strconv.decimal ∅ sample.off initial = (Ret p, st') /\
     pointsTo st' p = Some c /\
     storageConfig.Endpoint (ExportConfig.StorageConfig c) =
     buildBaseHttpUrl (@viper.GetBool ∅ (options ∅) "MINIO_SSL")
       (@viper.GetString ∅ (options ∅) "MINIO_HOST")
       (@viper.GetInt strconv.decimal ∅ (options ∅) "MINIO_PORT")) /\
  (exists p st' c,
     @Get strconv.decimal ∅ sample.on initial = (Ret p, st') /\
     pointsTo st' p = Some c /\
     storageConfig.Endpoint (ExportConfig.StorageConfig c) = "https://minio:443").
Proof.
  destruct (@endpoint_derivation strconv.decimal) as (_ & _ & _ & Henv & Hplatform).
  split.
  - apply (Henv ∅ sample.off initial); reflexivity.
  - destruct (Hplatform ∅ sample.on initial
                (sample.values (Some "RDS PEM") (sample.broker None)
                   (Some "/tmp/rdsca.pem") (Some (sample.policy "sasl_ssl"))))
      as (p & st' & c & Hg & Hp & _ & He); [reflexivity .. |].
    exists p, st', c. split; [exact Hg |]. split; [exact Hp | exact He].
Defined.

(** C3. With an active and complete provider, the SSL policy of the broker
    configuration is filled exactly when the first broker of the platform
    has an authentication type: it then holds the path of the CA file, the
    SASL user, password and mechanism and, as security protocol, the one
    the broker declares or "sasl_ssl" when it declares none; otherwise the
    policy is the zero value. *)
Theorem broker_ssl_policy `{!strconv.IntParser}
    (environ : gmap string string) (platform : clowder.t) (st : package) (r : injection) :
  doOnce st = false ->
  clowder.IsClowderEnabled platform = true ->
  readInjection platform = Some r ->
  exists p st' c kafka,
    Get environ platform st = (Ret p, st') /\ pointsTo st' p = Some c /\
    clowder.LoadedConfig platform = Some (cfg r) /\
    clowder.AppConfig.Kafka (cfg r) = Some kafka /\
    head (clowder.KafkaConfig.Brokers kafka) = Some (broker r) /\
    match clowder.BrokerConfig.Authtype (broker r) with
    | None => kafkaConfig.SSLConfig (ExportConfig.KafkaConfig c) = kafkaSSLConfig.zero
    | Some _ =>
        exists caPath sasl username password saslMechanism,
          clowder.KafkaCa platform (cfg r) [broker r] = (caPath, None) /\
          clowder.BrokerConfig.Sasl (broker r) = Some sasl /\
          clowder.KafkaSASLConfig.Username sasl = Some username /\
          clowder.KafkaSASLConfig.Password sasl = Some password /\
          clowder.KafkaSASLConfig.SaslMechanism sasl = Some saslMechanism /\
          kafkaConfig.SSLConfig (ExportConfig.KafkaConfig c) =
            {| kafkaSSLConfig.CA := caPath;
               kafkaSSLConfig.Username := username;
               kafkaSSLConfig.Password := password;
               kafkaSSLConfig.SASLMechanism := saslMechanism;
               kafkaSSLConfig.Protocol :=
                 match clowder.BrokerConfig.SecurityProtocol (broker r) with
                 | Some protocol => protocol
                 | None => "sasl_ssl"
                 end |}
    end.
Proof.
  intros Hd Hon Hr.
  destruct (readInjection_Some platform r Hr)
    as (Hcfg & _ & _ & _ & _ & (kafka & Hkafka & Hbroker) & Hssl & _).
  rewrite (Get_active environ platform st r Hd Hon Hr).
  eexists _, _, _, kafka. split; [reflexivity |]. split; [apply pointsTo_holding |].
  split; [exact Hcfg |]. split; [exact Hkafka |]. split; [exact Hbroker |].
  cbn [injected ExportConfig.KafkaConfig kafkaConfig.SSLConfig environmentStage].
  unfold brokerPolicy in Hssl.
  destruct (clowder.BrokerConfig.Authtype (broker r)) as [authtype|].
  - destruct (clowder.KafkaCa platform (cfg r) [broker r]) as [caPath [e|]];
      [discriminate |].
    destruct (clowder.BrokerConfig.Sasl (broker r)) as [sasl|]; [| discriminate].
    destruct (clowder.KafkaSASLConfig.Username sasl) as [username|] eqn:Hu; [| discriminate].
    destruct (clowder.KafkaSASLConfig.Password sasl) as [password|] eqn:Hp; [| discriminate].
    destruct (clowder.KafkaSASLConfig.SaslMechanism sasl) as [mechanism|] eqn:Hm;
      [| discriminate].
    injection Hssl as <-.
    exists caPath, sasl, username, password, mechanism.
    repeat (split; [first [reflexivity | assumption] |]).
    cbn. now destruct (clowder.BrokerConfig.SecurityProtocol (broker r)).
  - injection Hssl as <-. reflexivity.
Qed.

Lemma broker_ssl_policy_witness :
  exists p st' c,
    @Get strconv.decimal ∅ sample.on initial = (Ret p, st') /\ pointsTo st' p = Some c /\
    kafkaConfig.SSLConfig (ExportConfig.KafkaConfig c) = sample.policy "sasl_ssl".
Proof.
  pose proof (@broker_ssl_policy strconv.decimal ∅ sample.on initial
                (sample.values (Some "RDS PEM") (sample.broker None)
                   (Some "/tmp/rdsca.pem") (Some (sample.policy "sasl_ssl")))
                eq_refl eq_refl eq_refl) as Hw.
  destruct Hw as (p & st' & c & kafka & Hg & Hp & _ & _ & _ & Hssl).
  exists p, st', c. split; [exact Hg |]. split; [exact Hp |].
  cbn in Hssl.
  destruct Hssl as (caPath & sasl & username & password & mechanism
                    & Hca & Hsasl & Hu & Hpw & Hm & ->).
  injection Hca as <-. injection Hsasl as <-.
  injection Hu as <-. injection Hpw as <-. injection Hm as <-.
  reflexivity.
Defined.

(** The other two cases of C3 on sample providers: a declared protocol is
    kept, and a broker without authentication type leaves the policy at its
    zero value. *)
Example declared_protocol_is_kept :
  exists st',
    @Get strconv.decimal ∅ sample.explicit initial = (Ret (Some 0%nat), st') /\
    (kafkaConfig.SSLConfig ∘ ExportConfig.KafkaConfig) <$> pointsTo st' (Some 0%nat) =
    Some (sample.policy "SASL_PLAINTEXT").
Proof. eexists. split; vm_compute; reflexivity. Qed.

Example anonymous_broker_zero_policy :
  exists st',
    @Get strconv.decimal ∅ sample.plain initial = (Ret (Some 0%nat), st') /\
    (kafkaConfig.SSLConfig ∘ ExportConfig.KafkaConfig) <$> pointsTo st' (Some 0%nat) =
    Some kafkaSSLConfig.zero.
Proof. eexists. split; vm_compute; reflexivity. Qed.

(** C4, as amended. When the platform stage reaches the write of the CA
    bundle of the database or of the broker and the write fails, the call
    of the accessor panics (with "RDS CA failed to write: " and the error,
    or with "Kafka CA failed to write") and returns no value, and the
    resolution is never run again.  The panic is all the package does: the
    package variable already points to a snapshot that is populated in
    part, and every later call in the same process returns that snapshot.
    Its three ports are the platform's; after a failing write for the
    database everything else is as the environment stage left it; after a
    failing write for the broker the database configuration (with the file
    of its bundle, if it declares one) and the broker addresses are the
    platform's too.  In both cases the broker SSL policy is at its zero
    value, logging is absent and object storage is that of the environment
    stage. *)
Theorem ca_failure_panics `{!strconv.IntParser}
    (environ : gmap string string) (platform : clowder.t) (st : package) :
  doOnce st = false ->
  clowder.IsClowderEnabled platform = true ->
  (exists e, rdsCaFails platform e) \/ kafkaCaFails platform ->
  exists v st1 x c publicPort privatePort,
    Get environ platform st = (Panic v, st1) /\
    doOnce st1 = true /\
    (forall environ' platform', Get environ' platform' st1 = (Ret (config st1), st1)) /\
    pointsTo st1 (config st1) = Some x /\
    clowder.LoadedConfig platform = Some c /\
    clowder.AppConfig.PublicPort c = Some publicPort /\
    clowder.AppConfig.PrivatePort c = Some privatePort /\
    ExportConfig.PublicPort x = publicPort /\
    ExportConfig.MetricsPort x = clowder.AppConfig.MetricsPort c /\
    ExportConfig.PrivatePort x = privatePort /\
    kafkaConfig.SSLConfig (ExportConfig.KafkaConfig x) = kafkaSSLConfig.zero /\
    ExportConfig.Logging x = None /\
    ExportConfig.StorageConfig x = ExportConfig.StorageConfig (environmentStage environ) /\
    (forall e, rdsCaFails platform e ->
       v = "RDS CA failed to write: " +:+ e /\
       x = interrupted (environmentStage environ)
             publicPort (clowder.AppConfig.MetricsPort c) privatePort
             (ExportConfig.DBConfig (environmentStage environ))
             (kafkaConfig.Brokers (ExportConfig.KafkaConfig (environmentStage environ)))) /\
    (kafkaCaFails platform ->
       v = "Kafka CA failed to write" /\
       exists db rdsCa,
         clowder.AppConfig.Database c = Some db /\
         x = interrupted (environmentStage environ)
               publicPort (clowder.AppConfig.MetricsPort c) privatePort
               {| dbConfig.User := clowder.DatabaseConfig.Username db;
                  dbConfig.Password := clowder.DatabaseConfig.Password db;
                  dbConfig.Hostname := clowder.DatabaseConfig.Hostname db;
                  dbConfig.Port := fmt.Sprint (fmt.Int (clowder.DatabaseConfig.Port db));
                  dbConfig.Name := clowder.DatabaseConfig.Name db;
                  dbConfig.SSLCfg :=
                    {| dbSSLConfig.SSLMode := clowder.DatabaseConfig.SslMode db;
                       dbSSLConfig.RdsCa := rdsCa |} |}
               (clowder.KafkaServers platform) /\
         match rdsCa with
         | Some l =>
             exists path,
               clowder.DatabaseConfig.RdsCa db ≠ None /\
               clowder.RdsCa platform c = (path, None) /\
               heap st1 !! l = Some (ObjString path)
         | None => clowder.DatabaseConfig.RdsCa db = None
         end).
Proof.
  intros Hd Hon [[e Hrds] | Hkafka].
  - destruct (inject_rdsCaFails environ platform (heap st) (environmentStage environ)
                [] false e Hrds)
      as (c & publicPort & privatePort & Hc & Hpublic & Hprivate & Hi).
    rewrite (Get_first environ platform st Hd), Hon, Hi.
    eexists _, (holding (heap st) _ [] true), _, c, publicPort, privatePort.
    split; [reflexivity |]. split; [reflexivity |].
    split; [intros environ' platform'; now apply Get_done |].
    split; [apply pointsTo_holding |].
    do 3 (split; [assumption |]). do 6 (split; [reflexivity |]). split.
    + intros e' Hrds'. now rewrite (rdsCaFails_error platform e' e Hrds' Hrds).
    + intros Hkafka. now destruct (rdsCaFails_not_kafkaCaFails platform e Hrds).
  - destruct (inject_kafkaCaFails environ platform (heap st) (environmentStage environ)
                [] false Hkafka)
      as (c & publicPort & privatePort & db & rds & Hc & Hpublic & Hprivate & Hdb & Hw & Hi).
    rewrite (Get_first environ platform st Hd), Hon, Hi.
    eexists _, (holding (heap st) _ _ true), _, c, publicPort, privatePort.
    split; [reflexivity |]. split; [reflexivity |].
    split; [intros environ' platform'; now apply Get_done |].
    split; [apply pointsTo_holding |].
    do 3 (split; [assumption |]). do 6 (split; [reflexivity |]). split.
    + intros e Hrds. now destruct (rdsCaFails_not_kafkaCaFails platform e Hrds).
    + intros _. split; [reflexivity |]. eexists db, _.
      split; [exact Hdb |]. split; [reflexivity |].
      apply writeRdsCa_Some in Hw. destruct rds as [path|]; [| exact Hw].
      destruct Hw as [Hca Hpath]. exists path. do 2 (split; [assumption |]).
      unfold holding; cbn [heap length]. now rewrite lookup_after.
Qed.

Lemma ca_failure_panics_witness :
  (exists st1,
     @Get strconv.decimal ∅ sample.failing initial =
       (Panic "RDS CA failed to write: permission denied", st1) /\
     @Get strconv.decimal ∅ sample.off st1 = (Ret (config st1), st1)) /\
  (exists st1,
     @Get strconv.decimal ∅ sample.failingKafka initial =
       (Panic "Kafka CA failed to write", st1) /\
     @Get strconv.decimal ∅ sample.off st1 = (Ret (config st1), st1)).
Proof.
  assert (Hrds : rdsCaFails sample.failing "permission denied").
  { exists (sample.appConfig (Some "RDS PEM") (sample.broker None)), 8080, 10010,
      (sample.database (Some "RDS PEM")).
    do 4 (split; [reflexivity |]). split; [discriminate | reflexivity]. }
  assert (Hkafka : kafkaCaFails sample.failingKafka).
  { exists (sample.appConfig (Some "RDS PEM") (sample.broker None)), 8080, 10010,
      (sample.database (Some "RDS PEM")),
      {| clowder.KafkaConfig.Brokers := [sample.broker None] |}, (sample.broker None).
    do 4 (split; [reflexivity |]). split; [intros _; reflexivity |].
    do 2 (split; [reflexivity |]). split; discriminate. }
  split.
  - pose proof (@ca_failure_panics strconv.decimal ∅ sample.failing initial
                  eq_refl eq_refl (or_introl (ex_intro _ _ Hrds))) as Hw.
    destruct Hw as (v & st1 & x & c & publicPort & privatePort & Hg & _ & Hagain & Hrest).
    destruct Hrest as (_ & _ & _ & _ & _ & _ & _ & _ & _ & _ & Hmessage & _).
    destruct (Hmessage _ Hrds) as [-> _].
    exists st1. split; [exact Hg | apply Hagain].
  - pose proof (@ca_failure_panics strconv.decimal ∅ sample.failingKafka initial
                  eq_refl eq_refl (or_intror Hkafka)) as Hw.
    destruct Hw as (v & st1 & x & c & publicPort & privatePort & Hg & _ & Hagain & Hrest).
    destruct Hrest as (_ & _ & _ & _ & _ & _ & _ & _ & _ & _ & _ & Hmessage).
    destruct (Hmessage Hkafka) as [-> _].
    exists st1. split; [exact Hg | apply Hagain].
Defined.

(** C4 as stated fails for a caller that survives the panic: the second
    call returns a snapshot with the ports of the platform, the database of
    the environment and no logging. *)
Lemma partial_snapshot_after_panic :
  exists st1 p st2 c,
    @Get strconv.decimal ∅ sample.failing initial =
      (Panic "RDS CA failed to write: permission denied", st1) /\
    @Get strconv.decimal ∅ sample.failing st1 = (Ret p, st2) /\
    pointsTo st2 p = Some c /\
    ExportConfig.PublicPort c = 8080 /\
    dbConfig.User (ExportConfig.DBConfig c) = "postgres" /\
    ExportConfig.Logging c = None.
Proof.
  eexists _, _, _, _.
  split; [vm_compute; reflexivity |]. split; [vm_compute; reflexivity |].
  split; [vm_compute; reflexivity |]. repeat split; reflexivity.
Qed.

(** The same when the CA bundle of the broker cannot be written: the
    database is already the platform's, the broker policy, logging and
    object storage are not. *)
Example broker_failure_keeps_database :
  exists st1 p st2 c,
    @Get strconv.decimal ∅ sample.failingKafka initial =
      (Panic "Kafka CA failed to write", st1) /\
    @Get strconv.decimal ∅ sample.failingKafka st1 = (Ret p, st2) /\
    pointsTo st2 p = Some c /\
    dbConfig.User (ExportConfig.DBConfig c) = "bob" /\
    kafkaConfig.SSLConfig (ExportConfig.KafkaConfig c) = kafkaSSLConfig.zero /\
    storageConfig.Bucket (ExportConfig.StorageConfig c) = "exports-bucket" /\
    ExportConfig.Logging c = None.
Proof.
  eexists _, _, _, _.
  split; [vm_compute; reflexivity |]. split; [vm_compute; reflexivity |].
  split; [vm_compute; reflexivity |]. repeat split; reflexivity.
Qed.

(** C5. When none of the recognised environment variables is set and the
    platform provider is not active, the first call returns a snapshot with
    the documented defaults: ports 8000, 9000 and 10000, log level "INFO",
    debug off, the two OpenAPI paths, an expiry of 7 days, the database
    postgres/postgres/localhost/"15433"/postgres, the object storage at
    localhost, port 9099, without TLS, the broker group "export", the topic
    "platform.export.requests" and the CloudEvents metadata. *)
Theorem Get_defaults `{!strconv.IntParser}
    (environ : gmap string string) (platform : clowder.t) (st : package) :
  strconv.ParseInt "9099" = Some 9099 ->
  doOnce st = false ->
  clowder.IsClowderEnabled platform = false ->
  (forall key, key ∈ recognized -> environ !! key = None) ->
  exists p st' c,
    Get environ platform st = (Ret p, st') /\ pointsTo st' p = Some c /\
    ExportConfig.PublicPort c = 8000 /\
    ExportConfig.MetricsPort c = 9000 /\
    ExportConfig.PrivatePort c = 10000 /\
    ExportConfig.LogLevel c = "INFO" /\
    ExportConfig.Debug c = false /\
    ExportConfig.OpenAPIPublicPath c = "./static/spec/openapi.json" /\
    ExportConfig.OpenAPIPrivatePath c = "./static/spec/private.json" /\
    ExportConfig.ExportExpiryDays c = 7 /\
    ExportConfig.Logging c = None /\
    ExportConfig.DBConfig c =
      {| dbConfig.User := "postgres"; dbConfig.Password := "postgres";
         dbConfig.Hostname := "localhost"; dbConfig.Port := "15433";
         dbConfig.Name := "postgres";
         dbConfig.SSLCfg := {| dbSSLConfig.RdsCa := None; dbSSLConfig.SSLMode := "disable" |} |} /\
    ExportConfig.StorageConfig c =
      {| storageConfig.Bucket := "exports-bucket";
         storageConfig.Endpoint := buildBaseHttpUrl false "localhost" 9099;
         storageConfig.AccessKey := ""; storageConfig.SecretKey := "";
         storageConfig.UseSSL := false |} /\
    buildBaseHttpUrl false "localhost" 9099 = "http://localhost:9099" /\
    ExportConfig.KafkaConfig c =
      {| kafkaConfig.Brokers := [""];
         kafkaConfig.GroupID := "export";
         kafkaConfig.ExportsTopic := "platform.export.requests";
         kafkaConfig.SSLConfig := kafkaSSLConfig.zero;
         kafkaConfig.EventSource := "urn:redhat:source:export-service";
         kafkaConfig.EventSpecVersion := "1.0";
         kafkaConfig.EventType := "com.redhat.console.export-service.request";
         kafkaConfig.EventDataSchema :=
           "https://github.com/RedHatInsights/event-schemas/blob/main/schemas/apps/export-service/v1/export-request.json" |}.
Proof.
  intros Hparse Hd Hoff Hunset.
  apply Forall_forall in Hunset. unfold recognized in Hunset.
  repeat match goal with
    | Hl : Forall _ (_ :: _) |- _ =>
        let Hk := fresh "Hk" in
        apply Forall_cons in Hl as [Hk Hl];
        pose proof (Getenv_unset environ _ Hk); apply getEnv_unset in Hk
    end.
  rewrite (Get_inactive environ platform st Hd Hoff).
  eexists _, _, _. split; [reflexivity |]. split; [apply pointsTo_holding |].
  cbn. getters.
  repeat match goal with
    | Hk : viper.getEnv environ _ = None |- _ => rewrite Hk; clear Hk
    end.
  registered.
  repeat match goal with
    | Hk : os.Getenv environ _ = "" |- _ => rewrite ?Hk; clear Hk
    end.
  cbn [cast.ToInt cast.ToString cast.ToBool cast.ToStringSlice].
  rewrite Hparse.
  do 12 (split; [reflexivity |]). reflexivity.
Qed.

Lemma Get_defaults_witness :
  exists p st' c,
    @Get strconv.decimal ∅ sample.off initial = (Ret p, st') /\ pointsTo st' p = Some c /\
    ExportConfig.PublicPort c = 8000 /\
    ExportConfig.MetricsPort c = 9000 /\
    ExportConfig.PrivatePort c = 10000 /\
    ExportConfig.LogLevel c = "INFO" /\
    ExportConfig.Debug c = false.
Proof.
  pose proof (@Get_defaults strconv.decimal ∅ sample.off initial
                eq_refl eq_refl eq_refl (fun key _ => lookup_empty key)) as Hw.
  destruct Hw as (p & st' & c & Hg & Hp & H1 & H2 & H3 & H4 & H5 & _).
  exists p, st', c. do 6 (split; [assumption |]). assumption.
Defined.

(** C6, as amended. With the platform provider inactive, an environment
    variable that has a value other than the empty string decides the field
    read with its key (a string as it is, a number or a flag converted; the
    host, port and TLS flag of the object storage through the endpoint;
    EXPORTS_PSKS as the list of its pieces between commas, as long as the
    variable PSKS has no value), and no variable changes a field computed
    from other variables; a variable that is set to the empty string
    resolves as if it were not set.  How a value of KAFKA_BROKERS is cut
    into addresses is not part of the statement.  In particular
    PGSQL_USER=alice gives the database user "alice" and, the other
    database variables being unset, leaves the rest of the database
    configuration at its defaults. *)
Theorem environment_overrides `{!strconv.IntParser}
    (environ : gmap string string) (platform : clowder.t) (st : package)
    (key v : string) :
  doOnce st = false ->
  clowder.IsClowderEnabled platform = false ->
  environ !! key = Some v ->
  exists p st' c,
    Get environ platform st = (Ret p, st') /\ pointsTo st' p = Some c /\
    (v ≠ "" ->
     (forall f, variables f = [key] -> f ≠ KafkaBrokers ->
                fieldValue f c = converted f v) /\
     (exists ssl host port,
        storageConfig.Endpoint (ExportConfig.StorageConfig c) = buildBaseHttpUrl ssl host port /\
        (key = "MINIO_SSL" -> ssl = cast.ToBool (Some (VString v))) /\
        (key = "MINIO_HOST" -> host = v) /\
        (key = "MINIO_PORT" -> port = cast.ToInt (Some (VString v)))) /\
     (key = "EXPORTS_PSKS" -> os.Getenv environ "PSKS" = "" ->
      ExportConfig.Psks c = strings.Split v ",") /\
     (key = "PGSQL_USER" ->
      (forall k, k ∈ ["PGSQL_PASSWORD"; "PGSQL_HOSTNAME"; "PGSQL_PORT"; "PGSQL_DATABASE"] ->
                 environ !! k = None) ->
      ExportConfig.DBConfig c =
        {| dbConfig.User := v; dbConfig.Password := "postgres";
           dbConfig.Hostname := "localhost"; dbConfig.Port := "15433";
           dbConfig.Name := "postgres";
           dbConfig.SSLCfg :=
             {| dbSSLConfig.RdsCa := None; dbSSLConfig.SSLMode := "disable" |} |})) /\
    (forall environ' p' st'' c' f,
       (forall k, k ≠ key -> environ' !! k = environ !! k) ->
       Get environ' platform st = (Ret p', st'') -> pointsTo st'' p' = Some c' ->
       key ∉ variables f ->
       fieldValue f c' = fieldValue f c) /\
    (v = "" ->
     exists p0 st0,
       Get (delete key environ) platform st = (Ret p0, st0) /\ pointsTo st0 p0 = Some c).
Proof.
  intros Hd Hoff Hk.
  rewrite (Get_inactive environ platform st Hd Hoff).
  eexists _, _, _. split; [reflexivity |]. split; [apply pointsTo_holding |].
  split; [| split].
  - intros Hv. pose proof (getEnv_set environ key v Hk Hv) as Henv.
    split; [| split; [| split]].
    + intros f Hf _. now apply (environmentStage_override environ key v f).
    + eexists _, _, _. split; [reflexivity |].
      split; [| split]; intros ->; getters; now rewrite Henv.
    + intros -> Hpsks. cbn [environmentStage ExportConfig.Psks]. getters.
      rewrite (getEnv_Getenv environ "PSKS" Hpsks). registered.
      unfold os.Getenv, os.LookupEnv. now rewrite Hk.
    + intros -> Hunset.
      apply Forall_forall in Hunset.
      repeat match goal with
        | Hl : Forall _ (_ :: _) |- _ =>
            let Hu := fresh "Hu" in
            apply Forall_cons in Hl as [Hu Hl]; apply getEnv_unset in Hu
        end.
      cbn [environmentStage ExportConfig.DBConfig]. getters.
      rewrite Henv.
      repeat match goal with
        | Hu : viper.getEnv environ _ = None |- _ => rewrite Hu; clear Hu
        end.
      reflexivity.
  - intros environ' p' st'' c' f Hagree Hg Hp Hf.
    rewrite (Get_inactive environ' platform st Hd Hoff) in Hg.
    injection Hg as <- <-. rewrite pointsTo_holding in Hp. injection Hp as <-.
    now apply (environmentStage_agree environ environ' key f).
  - intros ->. destruct (delete_empty environ key Hk) as [Hget Hgetenv].
    rewrite (Get_inactive (delete key environ) platform st Hd Hoff).
    eexists _, _. split; [reflexivity |].
    rewrite pointsTo_holding. f_equal.
    now apply environmentStage_same.
Qed.

Lemma environment_overrides_witness :
  exists p st' c,
    @Get strconv.decimal sample.alice sample.off initial = (Ret p, st') /\
    pointsTo st' p = Some c /\
    ExportConfig.DBConfig c =
      {| dbConfig.User := "alice"; dbConfig.Password := "postgres";
         dbConfig.Hostname := "localhost"; dbConfig.Port := "15433";
         dbConfig.Name := "postgres";
         dbConfig.SSLCfg := {| dbSSLConfig.RdsCa := None; dbSSLConfig.SSLMode := "disable" |} |}.
Proof.
  pose proof (@environment_overrides strconv.decimal sample.alice sample.off initial
                "PGSQL_USER" "alice" eq_refl eq_refl eq_refl) as Hw.
  destruct Hw as (p & st' & c & Hg & Hp & Hset & _).
  destruct Hset as (_ & _ & _ & Hdb); [discriminate |].
  exists p, st', c. split; [exact Hg |]. split; [exact Hp |].
  apply Hdb; [reflexivity |].
  intros k Hin. apply lookup_singleton_ne.
  repeat (apply elem_of_cons in Hin as [-> | Hin]; [discriminate |]).
  now apply elem_of_nil in Hin.
Defined.

(** C6 as stated fails for a variable that is set to the empty string: the
    default is kept. *)
Lemma empty_variable_keeps_default :
  sample.blank !! "PGSQL_USER" = Some "" /\
  exists p st' c,
    @Get strconv.decimal sample.blank sample.off initial = (Ret p, st') /\
    pointsTo st' p = Some c /\
    dbConfig.User (ExportConfig.DBConfig c) = "postgres" /\
    dbConfig.User (ExportConfig.DBConfig c) ≠ "".
Proof.
  split; [reflexivity |].
  eexists _, _, _. split; [vm_compute; reflexivity |].
  split; [vm_compute; reflexivity |]. split; [reflexivity | discriminate].
Qed.

(** The proviso for EXPORTS_PSKS: its list is only the default of the
    key PSKS, and a variable PSKS with a value comes first. *)
Example exports_psks_behind_psks :
  exists p st' c,
    @Get strconv.decimal {[ "EXPORTS_PSKS" := "a,b"; "PSKS" := "k1" ]} sample.off initial =
      (Ret p, st') /\
    pointsTo st' p = Some c /\
    ExportConfig.Psks c = ["k1"].
Proof.
  eexists _, _, _. split; [vm_compute; reflexivity |].
  split; [vm_compute; reflexivity |]. reflexivity.
Qed.

(** C7. The CA path of the database SSL policy is set exactly when the
    platform declares a CA bundle for the database; it then points to the
    path that writing the bundle returned; without an active provider it is
    nil. *)
Theorem rds_ca_path `{!strconv.IntParser}
    (environ : gmap string string) (platform : clowder.t) (st : package) :
  doOnce st = false ->
  (clowder.IsClowderEnabled platform = false ->
   exists p st' c,
     Get environ platform st = (Ret p, st') /\ pointsTo st' p = Some c /\
     dbSSLConfig.RdsCa (dbConfig.SSLCfg (ExportConfig.DBConfig c)) = None) /\
  (forall r,
     clowder.IsClowderEnabled platform = true ->
     readInjection platform = Some r ->
     exists p st' c,
       Get environ platform st = (Ret p, st') /\ pointsTo st' p = Some c /\
       clowder.LoadedConfig platform = Some (cfg r) /\
       clowder.AppConfig.Database (cfg r) = Some (database r) /\
       (dbSSLConfig.RdsCa (dbConfig.SSLCfg (ExportConfig.DBConfig c)) ≠ None <->
        clowder.DatabaseConfig.RdsCa (database r) ≠ None) /\
       (forall l,
          dbSSLConfig.RdsCa (dbConfig.SSLCfg (ExportConfig.DBConfig c)) = Some l ->
          exists path,
            clowder.RdsCa platform (cfg r) = (path, None) /\
            heap st' !! l = Some (ObjString path))).
Proof.
  intros Hd. split.
  - intros Hoff. rewrite (Get_inactive environ platform st Hd Hoff).
    eexists _, _, _. split; [reflexivity |]. split; [apply pointsTo_holding | reflexivity].
  - intros r Hon Hr.
    destruct (readInjection_Some platform r Hr) as (Hcfg & _ & _ & Hdb & Hrds & _).
    apply writeRdsCa_Some in Hrds.
    rewrite (Get_active environ platform st r Hd Hon Hr).
    eexists _, _, _. split; [reflexivity |]. split; [apply pointsTo_holding |].
    split; [exact Hcfg |]. split; [exact Hdb |].
    cbn [injected ExportConfig.DBConfig dbConfig.SSLCfg dbSSLConfig.RdsCa].
    split.
    + unfold rdsCaPath. destruct (rdsCaPathValue r) as [path|].
      * destruct Hrds as [Hca _]. split; [intros _; exact Hca | discriminate].
      * rewrite Hrds. split; intros Hn; now contradiction Hn.
    + intros l Hl.
      destruct (rdsCaPath_allocated r (heap st) (injected platform r
                  (viper.GetString environ (options environ) "EXPORT_SERVICE_BUCKET")
                  (rdsCaPath r (length (heap st)) []) (logging r (length (heap st)) [])
                  (environmentStage environ)) true l Hl) as (path & Hpath & Hheap).
      rewrite Hpath in Hrds. destruct Hrds as [_ Hwrite].
      exists path. split; [exact Hwrite | exact Hheap].
Qed.

Lemma rds_ca_path_witness :
  exists p st' c l,
    @Get strconv.decimal ∅ sample.on initial = (Ret p, st') /\ pointsTo st' p = Some c /\
    dbSSLConfig.RdsCa (dbConfig.SSLCfg (ExportConfig.DBConfig c)) = Some l /\
    heap st' !! l = Some (ObjString "/tmp/rdsca.pem").
Proof.
  pose proof (@rds_ca_path strconv.decimal ∅ sample.on initial eq_refl) as [_ Hw].
  specialize (Hw (sample.values (Some "RDS PEM") (sample.broker None)
                    (Some "/tmp/rdsca.pem") (Some (sample.policy "sasl_ssl")))
                 eq_refl eq_refl).
  destruct Hw as (p & st' & c & Hg & Hp & _ & _ & [_ Hset] & Hpath).
  destruct (dbSSLConfig.RdsCa (dbConfig.SSLCfg (ExportConfig.DBConfig c))) as [l|] eqn:Hl.
  - destruct (Hpath l eq_refl) as (path & Hwrite & Hheap).
    injection Hwrite as <-.
    exists p, st', c, l. split; [exact Hg |]. split; [exact Hp |].
    split; [exact Hl | exact Hheap].
  - exfalso. apply Hset; [discriminate | reflexivity].
Defined.

(** C8. A second call of the accessor returns the pointer the first call
    returned and leaves the state of the package, the heap included, as the
    first call left it, whatever the environment and the platform provider
    are by then: the same instance, the same fields, the same objects
    behind its pointer fields, and nothing is read again. *)
Theorem Get_idempotent `{!strconv.IntParser}
    (environ environ' : gmap string string) (platform platform' : clowder.t)
    (st st' : package) (p : option loc) :
  Get environ platform st = (Ret p, st') ->
  Get environ' platform' st' = (Ret p, st') /\
  forall c, pointsTo st' p = Some c ->
    exists p' st'', Get environ' platform' st' = (Ret p', st'') /\ p' = p /\
      pointsTo st'' p' = Some c /\ heap st'' = heap st'.
Proof.
  intros Hg. destruct (Get_after environ platform st _ _ Hg) as [Hd Hp].
  assert (Hagain : Get environ' platform' st' = (Ret p, st')).
  { rewrite (Get_done environ' platform' st' Hd). now rewrite (Hp p eq_refl). }
  split; [exact Hagain |].
  intros c Hc. exists p, st'. auto.
Qed.

Lemma Get_idempotent_witness :
  @Get strconv.decimal ∅ sample.off sample.resolved = (Ret (Some 0%nat), sample.resolved).
Proof.
  apply (@Get_idempotent strconv.decimal sample.alice ∅ sample.on sample.off
           initial sample.resolved (Some 0%nat)).
  vm_compute. reflexivity.
Defined.

(** C10, as amended. With the platform provider inactive, the list of
    pre-shared keys is [""] when both EXPORTS_PSKS and PSKS are unset or
    empty, and the list of brokers is [""] when KAFKA_BROKERS is unset or
    empty: splitting the empty string on a comma gives one empty piece. *)
Theorem empty_lists `{!strconv.IntParser}
    (environ : gmap string string) (platform : clowder.t) (st : package) :
  doOnce st = false ->
  clowder.IsClowderEnabled platform = false ->
  exists p st' c,
    Get environ platform st = (Ret p, st') /\ pointsTo st' p = Some c /\
    strings.Split "" "," = [""] /\
    (os.Getenv environ "EXPORTS_PSKS" = "" -> os.Getenv environ "PSKS" = "" ->
     ExportConfig.Psks c = [""]) /\
    (os.Getenv environ "KAFKA_BROKERS" = "" ->
     kafkaConfig.Brokers (ExportConfig.KafkaConfig c) = [""]).
Proof.
  intros Hd Hoff.
  rewrite (Get_inactive environ platform st Hd Hoff).
  eexists _, _, _. split; [reflexivity |]. split; [apply pointsTo_holding |].
  split; [reflexivity |]. split.
  - intros Hexports Hpsks. cbn [environmentStage ExportConfig.Psks]. getters.
    rewrite (getEnv_Getenv environ "PSKS" Hpsks). registered. now rewrite Hexports.
  - intros Hbrokers.
    cbn [environmentStage ExportConfig.KafkaConfig kafkaConfig.Brokers]. getters.
    rewrite (getEnv_Getenv environ "KAFKA_BROKERS" Hbrokers). registered.
    now rewrite Hbrokers.
Qed.

Lemma empty_lists_witness :
  exists p st' c,
    @Get strconv.decimal ∅ sample.off initial = (Ret p, st') /\ pointsTo st' p = Some c /\
    ExportConfig.Psks c = [""] /\
    kafkaConfig.Brokers (ExportConfig.KafkaConfig c) = [""].
Proof.
  pose proof (@empty_lists strconv.decimal ∅ sample.off initial eq_refl eq_refl) as Hw.
  destruct Hw as (p & st' & c & Hg & Hp & _ & Hpsks & Hbrokers).
  exists p, st', c. split; [exact Hg |]. split; [exact Hp |].
  split; [apply Hpsks; reflexivity | apply Hbrokers; reflexivity].
Defined.

(** C10 as stated fails when the variable PSKS has a value: the key "PSKS"
    is itself looked up in the environment. *)
Lemma PSKS_variable_wins :
  sample.psks !! "EXPORTS_PSKS" = None /\
  sample.psks !! "KAFKA_BROKERS" = None /\
  exists p st' c,
    @Get strconv.decimal sample.psks sample.off initial = (Ret p, st') /\
    pointsTo st' p = Some c /\
    ExportConfig.Psks c = ["k1"] /\
    ExportConfig.Psks c ≠ [""].
Proof.
  split; [reflexivity |]. split; [reflexivity |].
  eexists _, _, _. split; [vm_compute; reflexivity |].
  split; [vm_compute; reflexivity |]. split; [reflexivity | discriminate].
Qed.

(** ** Further properties of the resolution *)

Lemma bind_ext {A B} (m : M A) (f g : A -> M B) st :
  (forall a st', f a st' = g a st') -> (m ≫= f) st = (m ≫= g) st.
Proof.
  intros Hfg. unfold mbind, M_bind. destruct (m st) as [[a|v] st']; [apply Hfg | reflexivity].
Qed.

Lemma bind_cong {A B} (m m' : M A) (f : A -> M B) st :
  m st = m' st -> (m ≫= f) st = (m' ≫= f) st.
Proof. intros Hm. unfold mbind, M_bind. now rewrite Hm. Qed.

(** X6. [getRdsCaPath] on a configuration with a database section returns,
    and never a pointer together with an error: without a declared bundle
    it returns (nil, nil) and leaves the state alone; when writing the
    bundle fails it returns (nil, the error) and leaves the state alone;
    otherwise it returns a fresh pointer to the path, the only change of the
    state being that object.  On a nil configuration or a nil database
    section it panics with a nil dereference. *)
Theorem getRdsCaPath_contract (platform : clowder.t) (st : package) :
  getRdsCaPath platform None st = (Panic nilDereference, st) /\
  (forall c,
     clowder.AppConfig.Database c = None ->
     getRdsCaPath platform (Some c) st = (Panic nilDereference, st)) /\
  (forall c db,
     clowder.AppConfig.Database c = Some db ->
     exists p err st',
       getRdsCaPath platform (Some c) st = (Ret (p, err), st') /\
       (p ≠ None -> err = None) /\
       config st' = config st /\ doOnce st' = doOnce st /\
       match clowder.DatabaseConfig.RdsCa db, clowder.RdsCa platform c with
       | None, _ => p = None /\ err = None /\ st' = st
       | Some _, (_, Some e) => p = None /\ err = Some e /\ st' = st
       | Some _, (path, None) =>
           p = Some (length (heap st)) /\ err = None /\
           heap st' = heap st ++ [ObjString path]
       end).
Proof.
  split; [reflexivity |]. split.
  - intros c Hdb. unfold getRdsCaPath.
    rewrite (bind_Ret _ _ _ _ _ (deref_Some c st)), Hdb. reflexivity.
  - intros c db Hdb. unfold getRdsCaPath.
    rewrite (bind_Ret _ _ _ _ _ (deref_Some c st)), Hdb.
    rewrite (bind_Ret _ _ _ _ _ (deref_Some db st)).
    destruct (clowder.DatabaseConfig.RdsCa db) as [ca|].
    + decided (Some ca ≠ None).
      destruct (clowder.RdsCa platform c) as [path [e|]].
      * decided (Some e ≠ None). eexists _, _, _. split; [reflexivity |].
        split; [intros Hp; now contradiction Hp |]. repeat split.
      * decided (@None string ≠ None). eexists _, _, _. split; [reflexivity |].
        repeat split.
    + decided (@None string ≠ None). eexists _, _, _. split; [reflexivity |].
      repeat split.
Qed.

Lemma getRdsCaPath_contract_witness :
  exists st',
    getRdsCaPath sample.on
      (Some (sample.appConfig (Some "RDS PEM") (sample.broker None))) initial =
      (Ret (Some 0%nat, None), st') /\
    heap st' = [ObjString "/tmp/rdsca.pem"].
Proof.
  destruct (getRdsCaPath_contract sample.on initial) as (_ & _ & Hw).
  destruct (Hw (sample.appConfig (Some "RDS PEM") (sample.broker None))
               (sample.database (Some "RDS PEM")) eq_refl)
    as (p & err & st' & Hg & _ & _ & _ & Hcase).
  cbn in Hcase. destruct Hcase as (-> & -> & Hheap).
  exists st'. split; [exact Hg | exact Hheap].
Defined.

Section Writers.
Context `{!strconv.IntParser}.
Variable environ : gmap string string.
Variable platform : clowder.t.

(** [sameRun]: the two runs agree up to the place where they could
    differ. *)
Ltac sameRun known :=
  repeat first
    [ progress known
    | rewrite !(bind_Ret _ _ _ _ _ (deref_Some _ _))
    | rewrite !(bind_Ret _ _ _ _ _ (first_cons _ _ _))
    | apply bind_ext; intros
    | match goal with
      | |- (match ?x with _ => _ end) _ = _ => destruct x
      | |- (let '(_, _) := ?x in _) _ = _ => destruct x
      end
    | reflexivity ].

Lemma inject_withRdsCa f c db st :
  clowder.LoadedConfig platform = Some c ->
  clowder.AppConfig.Database c = Some db ->
  clowder.DatabaseConfig.RdsCa db = None ->
  inject environ (withRdsCa f platform) st = inject environ platform st.
Proof.
  intros Hc Hdb Hca. unfold inject, withRdsCa.
  cbn [clowder.LoadedConfig clowder.KafkaServers clowder.ObjectBuckets clowder.KafkaCa].
  rewrite Hc. sameRun idtac.
  apply bind_cong. unfold getRdsCaPath.
  rewrite !(bind_Ret _ _ _ _ _ (deref_Some _ _)), Hdb.
  rewrite !(bind_Ret _ _ _ _ _ (deref_Some _ _)), Hca.
  reflexivity.
Qed.

Lemma inject_withKafkaCa g c kafka b bs st :
  clowder.LoadedConfig platform = Some c ->
  clowder.AppConfig.Kafka c = Some kafka ->
  clowder.KafkaConfig.Brokers kafka = b :: bs ->
  clowder.BrokerConfig.Authtype b = None ->
  inject environ (withKafkaCa g platform) st = inject environ platform st.
Proof.
  intros Hc Hk Hb Ha. unfold inject, withKafkaCa.
  cbn [clowder.LoadedConfig clowder.KafkaServers clowder.ObjectBuckets clowder.KafkaCa
       clowder.RdsCa].
  rewrite Hc.
  sameRun ltac:(rewrite ?Hk, ?Hb, ?Ha).
Qed.
Lemma Get_same_injection platform' st :
  clowder.IsClowderEnabled platform' = clowder.IsClowderEnabled platform ->
  (forall st0, inject environ platform' st0 = inject environ platform st0) ->
  Get environ platform' st = Get environ platform st.
Proof.
  intros Hon Hi. unfold Get. apply bind_cong. unfold sync.Do.
  rewrite !initialize_environment, Hon.
  destruct (clowder.IsClowderEnabled platform); [now rewrite Hi | reflexivity].
Qed.

End Writers.

(** X7. The CA bundle of the database is written only when the platform
    declares one: without a declared bundle the method that writes it is
    not called, so that a call of the accessor has the same outcome and
    leaves the same state whatever that method would do. *)
Theorem rds_ca_written_only_if_declared `{!strconv.IntParser}
    (environ : gmap string string) (platform : clowder.t) (st : package)
    (f : clowder.AppConfig.t -> string * option string)
    (c : clowder.AppConfig.t) (db : clowder.DatabaseConfig.t) :
  clowder.LoadedConfig platform = Some c ->
  clowder.AppConfig.Database c = Some db ->
  clowder.DatabaseConfig.RdsCa db = None ->
  Get environ (withRdsCa f platform) st = Get environ platform st.
Proof.
  intros Hc Hdb Hca. apply Get_same_injection; [reflexivity |].
  intros st0. now apply (inject_withRdsCa environ platform f c db).
Qed.

Lemma rds_ca_written_only_if_declared_witness :
  @Get strconv.decimal ∅
    (withRdsCa (fun _ => ("", Some "disk full")) sample.plain) initial =
  @Get strconv.decimal ∅ sample.plain initial.
Proof.
  apply (@rds_ca_written_only_if_declared strconv.decimal ∅ sample.plain initial
           (fun _ => ("", Some "disk full"))
           (sample.appConfig None sample.anonymous) (sample.database None));
    reflexivity.
Defined.

(** X8. The CA bundle of the broker is written only when the first broker
    has an authentication type: for a first broker without one the method
    that writes the bundle is not called, whatever the other brokers
    declare, so that a call of the accessor has the same outcome and leaves
    the same state whatever that method would do. *)
Theorem kafka_ca_written_only_if_authenticated `{!strconv.IntParser}
    (environ : gmap string string) (platform : clowder.t) (st : package)
    (g : clowder.AppConfig.t -> list clowder.BrokerConfig.t -> string * option string)
    (c : clowder.AppConfig.t) (kafka : clowder.KafkaConfig.t)
    (b : clowder.BrokerConfig.t) (bs : list clowder.BrokerConfig.t) :
  clowder.LoadedConfig platform = Some c ->
  clowder.AppConfig.Kafka c = Some kafka ->
  clowder.KafkaConfig.Brokers kafka = b :: bs ->
  clowder.BrokerConfig.Authtype b = None ->
  Get environ (withKafkaCa g platform) st = Get environ platform st.
Proof.
  intros Hc Hk Hb Ha. apply Get_same_injection; [reflexivity |].
  intros st0. now apply (inject_withKafkaCa environ platform g c kafka b bs).
Qed.

Lemma kafka_ca_written_only_if_authenticated_witness :
  @Get strconv.decimal ∅
    (withKafkaCa (fun _ _ => ("", Some "disk full")) sample.plain) initial =
  @Get strconv.decimal ∅ sample.plain initial.
Proof.
  apply (@kafka_ca_written_only_if_authenticated strconv.decimal ∅ sample.plain initial
           (fun _ _ => ("", Some "disk full"))
           (sample.appConfig None sample.anonymous)
           {| clowder.KafkaConfig.Brokers := [sample.anonymous] |} sample.anonymous []);
    reflexivity.
Defined.

Section Outcomes.
Context `{!strconv.IntParser}.
Variable environ : gmap string string.
Variable platform : clowder.t.

(** The state a first call leaves, whether it returns or panics. *)
Lemma Get_first_state st :
  doOnce st = false ->
  exists r c t,
    Get environ platform st = (r, holding (heap st) c t true) /\
    (r = Ret (Some (length (heap st))) \/ exists v, r = Panic v).
Proof.
  intros Hd. destruct (clowder.IsClowderEnabled platform) eqn:Hon.
  - destruct (readInjection platform) as [r|] eqn:Hr.
    + rewrite (Get_active environ platform st r Hd Hon Hr). eauto 6.
    + destruct (Get_incomplete environ platform st Hd Hon Hr) as (v & c & t & ->). eauto 7.
  - rewrite (Get_inactive environ platform st Hd Hon). eauto 6.
Qed.

(** What a first call that returns has in the fields the platform stage
    does not assign. *)
Lemma Get_first_Ret st p st' :
  doOnce st = false ->
  Get environ platform st = (Ret p, st') ->
  exists c,
    pointsTo st' p = Some c /\
    ExportConfig.Hostname c = ExportConfig.Hostname (environmentStage environ) /\
    ExportConfig.LogLevel c = ExportConfig.LogLevel (environmentStage environ) /\
    ExportConfig.Debug c = ExportConfig.Debug (environmentStage environ) /\
    ExportConfig.OpenAPIPrivatePath c =
      ExportConfig.OpenAPIPrivatePath (environmentStage environ) /\
    ExportConfig.OpenAPIPublicPath c =
      ExportConfig.OpenAPIPublicPath (environmentStage environ) /\
    ExportConfig.Psks c = ExportConfig.Psks (environmentStage environ) /\
    ExportConfig.ExportExpiryDays c = ExportConfig.ExportExpiryDays (environmentStage environ).
Proof.
  intros Hd. destruct (clowder.IsClowderEnabled platform) eqn:Hon.
  - destruct (readInjection platform) as [r|] eqn:Hr.
    + rewrite (Get_active environ platform st r Hd Hon Hr). intros [= <- <-].
      eexists. split; [apply pointsTo_holding |]. repeat split.
    + destruct (Get_incomplete environ platform st Hd Hon Hr) as (v & c & t & ->).
      discriminate.
  - rewrite (Get_inactive environ platform st Hd Hon). intros [= <- <-].
    eexists. split; [apply pointsTo_holding |]. repeat split.
Qed.

End Outcomes.

Lemma calls_done `{!strconv.IntParser} inputs st :
  doOnce st = true ->
  calls inputs st = (replicate (length inputs) (Ret (config st)), st).
Proof.
  intros Hd. induction inputs as [|[environ platform] rest IH]; [reflexivity |].
  cbn [calls]. rewrite (Get_done environ platform st Hd), IH. reflexivity.
Qed.

(** X1. With an active and complete provider the three ports of the
    snapshot are the platform's public, metrics and private port, whatever
    PUBLIC_PORT, METRICS_PORT and PRIVATE_PORT say in the environment. *)
Theorem platform_ports `{!strconv.IntParser}
    (environ : gmap string string) (platform : clowder.t) (st : package) (r : injection) :
  doOnce st = false ->
  clowder.IsClowderEnabled platform = true ->
  readInjection platform = Some r ->
  exists p st' c,
    Get environ platform st = (Ret p, st') /\ pointsTo st' p = Some c /\
    clowder.LoadedConfig platform = Some (cfg r) /\
    clowder.AppConfig.PublicPort (cfg r) = Some (ExportConfig.PublicPort c) /\
    ExportConfig.MetricsPort c = clowder.AppConfig.MetricsPort (cfg r) /\
    clowder.AppConfig.PrivatePort (cfg r) = Some (ExportConfig.PrivatePort c).
Proof.
  intros Hd Hon Hr.
  destruct (readInjection_Some platform r Hr) as (Hcfg & Hpublic & Hprivate & _).
  rewrite (Get_active environ platform st r Hd Hon Hr).
  eexists _, _, _. split; [reflexivity |]. split; [apply pointsTo_holding |].
  split; [exact Hcfg |]. split; [exact Hpublic |]. split; [reflexivity | exact Hprivate].
Qed.

Lemma platform_ports_witness :
  exists p st' c,
    @Get strconv.decimal sample.ports sample.on initial = (Ret p, st') /\
    pointsTo st' p = Some c /\
    ExportConfig.PublicPort c = 8080 /\
    ExportConfig.MetricsPort c = 9090 /\
    ExportConfig.PrivatePort c = 10010.
Proof.
  pose proof (@platform_ports strconv.decimal sample.ports sample.on initial
                (sample.values (Some "RDS PEM") (sample.broker None)
                   (Some "/tmp/rdsca.pem") (Some (sample.policy "sasl_ssl")))
                eq_refl eq_refl eq_refl) as Hw.
  destruct Hw as (p & st' & c & Hg & Hp & _ & Hpublic & Hmetrics & Hprivate).
  exists p, st', c. split; [exact Hg |]. split; [exact Hp |].
  injection Hpublic as <-. injection Hprivate as <-.
  split; [reflexivity |]. split; [exact Hmetrics | reflexivity].
Defined.

(** X2. The platform stage assigns neither the host name, the log level,
    the debug flag, the two OpenAPI paths, the pre-shared keys nor the
    expiry: whenever a first call returns, with whatever provider, these
    fields are those the same environment gives without a platform. *)
Theorem platform_keeps_environment_fields `{!strconv.IntParser}
    (environ : gmap string string) (platform inactive : clowder.t)
    (st st' : package) (p : option loc) :
  doOnce st = false ->
  clowder.IsClowderEnabled inactive = false ->
  Get environ platform st = (Ret p, st') ->
  exists c p0 st0 c0,
    pointsTo st' p = Some c /\
    Get environ inactive st = (Ret p0, st0) /\ pointsTo st0 p0 = Some c0 /\
    ExportConfig.Hostname c = ExportConfig.Hostname c0 /\
    ExportConfig.LogLevel c = ExportConfig.LogLevel c0 /\
    ExportConfig.Debug c = ExportConfig.Debug c0 /\
    ExportConfig.OpenAPIPrivatePath c = ExportConfig.OpenAPIPrivatePath c0 /\
    ExportConfig.OpenAPIPublicPath c = ExportConfig.OpenAPIPublicPath c0 /\
    ExportConfig.Psks c = ExportConfig.Psks c0 /\
    ExportConfig.ExportExpiryDays c = ExportConfig.ExportExpiryDays c0.
Proof.
  intros Hd Hoff Hg.
  destruct (Get_first_Ret environ platform st p st' Hd Hg) as (c & Hc & Hkept).
  rewrite (Get_inactive environ inactive st Hd Hoff).
  exists c. eexists _, _, _. split; [exact Hc |]. split; [reflexivity |].
  split; [apply pointsTo_holding | exact Hkept].
Qed.

Lemma platform_keeps_environment_fields_witness :
  exists c,
    pointsTo sample.resolved (Some 0%nat) = Some c /\
    ExportConfig.LogLevel c = "INFO" /\ ExportConfig.ExportExpiryDays c = 7.
Proof.
  pose proof (@platform_keeps_environment_fields strconv.decimal sample.alice
                sample.on sample.off initial sample.resolved (Some 0%nat) eq_refl eq_refl) as Hw.
  destruct Hw as (c & p0 & st0 & c0 & Hc & Hg0 & Hc0 & _ & Hlevel & _ & _ & _ & _ & Hexpiry);
    [vm_compute; reflexivity |].
  exists c. split; [exact Hc |].
  vm_compute in Hg0. injection Hg0 as <- <-.
  vm_compute in Hc0. injection Hc0 as <-.
  split; [exact Hlevel | exact Hexpiry].
Defined.

(** X3. Without the platform provider a first call cannot fail: for every
    environment it returns a fresh pointer.  No environment variable
    reaches the bucket name, the SSL mode and CA path of the database, the
    SSL policy of the broker or the logging configuration: they are
    "exports-bucket", "disable", nil, the zero value and nil. *)
Theorem inactive_resolution `{!strconv.IntParser}
    (environ : gmap string string) (platform : clowder.t) (st : package) :
  doOnce st = false ->
  clowder.IsClowderEnabled platform = false ->
  exists st' c,
    Get environ platform st = (Ret (Some (length (heap st))), st') /\
    pointsTo st' (Some (length (heap st))) = Some c /\
    heap st !! length (heap st) = None /\
    storageConfig.Bucket (ExportConfig.StorageConfig c) = "exports-bucket" /\
    dbConfig.SSLCfg (ExportConfig.DBConfig c) =
      {| dbSSLConfig.RdsCa := None; dbSSLConfig.SSLMode := "disable" |} /\
    kafkaConfig.SSLConfig (ExportConfig.KafkaConfig c) = kafkaSSLConfig.zero /\
    ExportConfig.Logging c = None.
Proof.
  intros Hd Hoff. rewrite (Get_inactive environ platform st Hd Hoff).
  eexists _, _. split; [reflexivity |]. split; [apply pointsTo_holding |].
  split; [now apply lookup_ge_None |]. repeat split.
Qed.

Lemma inactive_resolution_witness :
  exists st' c,
    @Get strconv.decimal sample.alice sample.off initial = (Ret (Some 0%nat), st') /\
    pointsTo st' (Some 0%nat) = Some c /\
    storageConfig.Bucket (ExportConfig.StorageConfig c) = "exports-bucket".
Proof.
  pose proof (@inactive_resolution strconv.decimal sample.alice sample.off initial
                eq_refl eq_refl) as Hw.
  destruct Hw as (st' & c & Hg & Hc & _ & Hbucket & _).
  exists st', c. split; [exact Hg |]. split; [exact Hc | exact Hbucket].
Defined.



(** X5. With an active and complete provider the bucket name is the
    requested name the platform registers under the name
    EXPORT_SERVICE_BUCKET gives; when the variable is unset or empty the
    name looked up is the empty string, and a name the platform does not
    register gives the empty bucket name, not a failure.  Access key and
    secret key are those of the first bucket of the object store, whichever
    bucket was looked up. *)
Theorem bucket_lookup `{!strconv.IntParser}
    (environ : gmap string string) (platform : clowder.t) (st : package) (r : injection) :
  doOnce st = false ->
  clowder.IsClowderEnabled platform = true ->
  readInjection platform = Some r ->
  exists p st' c,
    Get environ platform st = (Ret p, st') /\ pointsTo st' p = Some c /\
    let exportBucket := default "" (viper.getEnv environ "EXPORT_SERVICE_BUCKET") in
    (clowder.ObjectBuckets platform !! exportBucket = None ->
     storageConfig.Bucket (ExportConfig.StorageConfig c) = "") /\
    (forall info, clowder.ObjectBuckets platform !! exportBucket = Some info ->
       storageConfig.Bucket (ExportConfig.StorageConfig c) =
       clowder.ObjectStoreBucket.RequestedName info) /\
    clowder.AppConfig.ObjectStore (cfg r) = Some (objectStore r) /\
    head (clowder.ObjectStoreConfig.Buckets (objectStore r)) = Some (bucket r) /\
    clowder.ObjectStoreBucket.AccessKey (bucket r) =
      Some (storageConfig.AccessKey (ExportConfig.StorageConfig c)) /\
    clowder.ObjectStoreBucket.SecretKey (bucket r) =
      Some (storageConfig.SecretKey (ExportConfig.StorageConfig c)).
Proof.
  intros Hd Hon Hr.
  destruct (readInjection_Some platform r Hr)
    as (_ & _ & _ & _ & _ & _ & _ & _ & Hos & Hbucket & Hak & Hsk).
  rewrite (Get_active environ platform st r Hd Hon Hr).
  eexists _, _, _. split; [reflexivity |]. split; [apply pointsTo_holding |].
  cbn [injected ExportConfig.StorageConfig storageConfig.Bucket storageConfig.AccessKey
       storageConfig.SecretKey].
  assert (Hname : viper.GetString environ (options environ) "EXPORT_SERVICE_BUCKET" =
                  default "" (viper.getEnv environ "EXPORT_SERVICE_BUCKET")).
  { getters. now destruct (viper.getEnv environ "EXPORT_SERVICE_BUCKET"). }
  rewrite Hname. cbn zeta.
  split; [now intros -> |]. split; [now intros info -> |].
  split; [exact Hos |]. split; [exact Hbucket |]. split; [exact Hak | exact Hsk].
Qed.

Lemma bucket_lookup_witness :
  (exists p st' c,
     @Get strconv.decimal sample.exports sample.on initial = (Ret p, st') /\
     pointsTo st' p = Some c /\
     storageConfig.Bucket (ExportConfig.StorageConfig c) = "exports-requested") /\
  (exists p st' c,
     @Get strconv.decimal ∅ sample.on initial = (Ret p, st') /\
     pointsTo st' p = Some c /\
     storageConfig.Bucket (ExportConfig.StorageConfig c) = "").
Proof.
  split.
  - pose proof (@bucket_lookup strconv.decimal sample.exports sample.on initial
                  (sample.values (Some "RDS PEM") (sample.broker None)
                     (Some "/tmp/rdsca.pem") (Some (sample.policy "sasl_ssl")))
                  eq_refl eq_refl eq_refl) as Hw.
    destruct Hw as (p & st' & c & Hg & Hc & _ & Hfound & _).
    exists p, st', c. split; [exact Hg |]. split; [exact Hc |].
    apply (Hfound sample.bucket). reflexivity.
  - pose proof (@bucket_lookup strconv.decimal ∅ sample.on initial
                  (sample.values (Some "RDS PEM") (sample.broker None)
                     (Some "/tmp/rdsca.pem") (Some (sample.policy "sasl_ssl")))
                  eq_refl eq_refl eq_refl) as Hw.
    destruct Hw as (p & st' & c & Hg & Hc & Hmissing & _).
    exists p, st', c. split; [exact Hg |]. split; [exact Hc |].
    apply Hmissing. reflexivity.
Defined.

(** X9. With an active provider a first call returns exactly when the
    provider is complete: every pointer the platform stage follows is set,
    the broker list and the bucket list are not empty, and every CA bundle
    it asks for is written.  Otherwise it panics, and [doOnce] has run; in
    particular it panics on an empty broker list and on an object store
    without buckets. *)
Theorem Get_returns_iff_complete `{!strconv.IntParser}
    (environ : gmap string string) (platform : clowder.t) (st : package) :
  doOnce st = false ->
  clowder.IsClowderEnabled platform = true ->
  ((exists p st', Get environ platform st = (Ret p, st')) <->
   is_Some (readInjection platform)) /\
  ((exists v st', Get environ platform st = (Panic v, st') /\ doOnce st' = true) <->
   readInjection platform = None) /\
  (forall c kafka,
     clowder.LoadedConfig platform = Some c ->
     clowder.AppConfig.Kafka c = Some kafka ->
     clowder.KafkaConfig.Brokers kafka = [] ->
     exists v st', Get environ platform st = (Panic v, st')) /\
  (forall c store,
     clowder.LoadedConfig platform = Some c ->
     clowder.AppConfig.ObjectStore c = Some store ->
     clowder.ObjectStoreConfig.Buckets store = [] ->
     exists v st', Get environ platform st = (Panic v, st')).
Proof.
  intros Hd Hon.
  assert (Hpanic : readInjection platform = None ->
                   exists v st', Get environ platform st = (Panic v, st') /\ doOnce st' = true).
  { intros Hr. destruct (Get_incomplete environ platform st Hd Hon Hr) as (v & c & t & Hg).
    exists v, (holding (heap st) c t true). split; [exact Hg | reflexivity]. }
  split; [exact (Get_returns environ platform st Hd Hon) |]. split; [split |].
  - intros (v & st' & Hg & _). destruct (readInjection platform) as [r|] eqn:Hr; [| reflexivity].
    rewrite (Get_active environ platform st r Hd Hon Hr) in Hg. discriminate.
  - exact Hpanic.
  - split.
    + intros c kafka Hc Hk Hb.
      destruct Hpanic as (v & st' & Hg & _); [| eauto].
      unfold readInjection. rewrite Hc.
      repeat match goal with
        | |- match ?o with Some _ => _ | None => None end = None =>
            destruct o eqn:?; [| reflexivity]
        end.
      all: congruence || (simplify_eq; rewrite Hb in *; discriminate).
    + intros c store Hc Hs Hb.
      destruct Hpanic as (v & st' & Hg & _); [| eauto].
      unfold readInjection. rewrite Hc.
      repeat match goal with
        | |- match ?o with Some _ => _ | None => None end = None =>
            destruct o eqn:?; [| reflexivity]
        end.
      all: congruence || (simplify_eq; rewrite Hb in *; discriminate).
Qed.

Lemma Get_returns_iff_complete_witness :
  exists v st', @Get strconv.decimal ∅ sample.noBroker initial = (Panic v, st').
Proof.
  pose proof (@Get_returns_iff_complete strconv.decimal ∅ sample.noBroker initial
                eq_refl eq_refl) as (_ & _ & Hempty & _).
  apply (Hempty _ {| clowder.KafkaConfig.Brokers := [] |} eq_refl eq_refl eq_refl).
Defined.

(** X10. In a process that calls the accessor any number of times, going
    on after a panic, only the first call resolves: it returns a fresh
    pointer or panics, every later call returns that same pointer, which
    points to a snapshot (a partly filled one after a panic), and no later
    call changes the state, whatever the environment and the provider have
    become. *)
Theorem calls_after_first `{!strconv.IntParser}
    (environ : gmap string string) (platform : clowder.t)
    (rest : list (gmap string string * clowder.t)) (st : package) :
  doOnce st = false ->
  exists r c,
    calls ((environ, platform) :: rest) st =
      (r :: replicate (length rest) (Ret (Some (length (heap st)))),
       snd (Get environ platform st)) /\
    fst (Get environ platform st) = r /\
    (r = Ret (Some (length (heap st))) \/ exists v, r = Panic v) /\
    pointsTo (snd (Get environ platform st)) (Some (length (heap st))) = Some c.
Proof.
  intros Hd.
  destruct (Get_first_state environ platform st Hd) as (r & c & t & Hg & Hr).
  exists r, c. cbn [calls]. rewrite Hg. cbn [fst snd].
  rewrite calls_done by reflexivity.
  split; [reflexivity |]. split; [reflexivity |]. split; [exact Hr |].
  apply pointsTo_holding.
Qed.

Lemma calls_after_first_witness :
  exists st',
    @calls strconv.decimal
      [(∅, sample.failing); (sample.alice, sample.on); (∅, sample.off)] initial =
    ([Panic "RDS CA failed to write: permission denied"; Ret (Some 0%nat); Ret (Some 0%nat)],
     st').
Proof.
  pose proof (@calls_after_first strconv.decimal ∅ sample.failing
                [(sample.alice, sample.on); (∅, sample.off)] initial eq_refl) as Hw.
  destruct Hw as (r & c & Hcalls & Hr & _).
  vm_compute in Hr. subst r.
  eexists. exact Hcalls.
Defined.

(** ** The two lists *)

Lemma split_from_nonempty sep s skip cur : strings.split_from sep s skip cur ≠ [].
Proof.
  revert skip cur. induction s as [|a s IH]; intros skip cur; cbn [strings.split_from].
  - discriminate.
  - destruct skip; [| apply IH].
    destruct (strings.HasPrefix (String a s) sep); [discriminate | apply IH].
Qed.

Lemma append_cons_end (cur : string) (a : ascii) (s : string) :
  (cur +:+ String a "") +:+ s = cur +:+ String a s.
Proof.
  induction cur as [|b cur IH]; [reflexivity |].
  change (String b ((cur +:+ String a "") +:+ s) = String b (cur +:+ String a s)).
  now rewrite IH.
Qed.

Lemma fields_from_noSpace s skip cur :
  noSpace_from s skip = true ->
  strings.fields_from s skip true cur = strings.flush (cur +:+ s) [].
Proof.
  revert skip cur.
  induction s as [|a s IH]; intros skip cur Hs; cbn [strings.fields_from noSpace_from] in *.
  - now rewrite append_empty.
  - destruct skip as [|k].
    + destruct (utf8.DecodeRuneInString (String a s)) as [r size].
      apply andb_true_iff in Hs as [Hr Hs]. apply negb_true_iff in Hr.
      rewrite Hr, (IH _ _ Hs). now rewrite append_cons_end.
    + rewrite (IH _ _ Hs). now rewrite append_cons_end.
Qed.

Lemma Fields_noSpace s : noSpace s = true -> s ≠ "" -> strings.Fields s = [s].
Proof.
  intros Hs Hne. unfold strings.Fields. rewrite (fields_from_noSpace s O "" Hs).
  change ("" +:+ s) with s. destruct s; [contradiction | reflexivity].
Qed.

(** X11. Whenever a first call returns, with or without platform, the list
    of pre-shared keys is the value of PSKS split at white space (the runes
    of [unicode.IsSpace]) when that
    variable has a value; otherwise it is the value of EXPORTS_PSKS split
    at every comma, which is never the empty list: an unset variable, two
    commas in a row or a comma at the end give an empty key. *)
Theorem psks_resolution `{!strconv.IntParser}
    (environ : gmap string string) (platform : clowder.t)
    (st st' : package) (p : option loc) :
  doOnce st = false ->
  Get environ platform st = (Ret p, st') ->
  exists c,
    pointsTo st' p = Some c /\
    (forall v, viper.getEnv environ "PSKS" = Some v ->
               ExportConfig.Psks c = strings.Fields v) /\
    (viper.getEnv environ "PSKS" = None ->
     ExportConfig.Psks c = strings.Split (os.Getenv environ "EXPORTS_PSKS") "," /\
     ExportConfig.Psks c ≠ []).
Proof.
  intros Hd Hg.
  destruct (Get_first_Ret environ platform st p st' Hd Hg)
    as (c & Hc & _ & _ & _ & _ & _ & Hpsks & _).
  exists c. split; [exact Hc |]. rewrite Hpsks.
  cbn [environmentStage ExportConfig.Psks]. getters. split.
  - now intros v ->.
  - intros ->. registered. cbn [cast.ToStringSlice].
    split; [reflexivity | apply split_from_nonempty].
Qed.

Lemma psks_resolution_witness :
  exists c,
    pointsTo (snd (@Get strconv.decimal sample.keys sample.off initial)) (Some 0%nat) = Some c /\
    ExportConfig.Psks c = ["k1"; "k2"; ""].
Proof.
  pose proof (@psks_resolution strconv.decimal sample.keys sample.off initial
                (snd (@Get strconv.decimal sample.keys sample.off initial)) (Some 0%nat)
                eq_refl) as Hw.
  destruct Hw as (c & Hc & _ & Hsplit); [vm_compute; reflexivity |].
  exists c. split; [exact Hc |].
  destruct Hsplit as [-> _]; reflexivity.
Defined.

(** X12. Without the platform provider the broker list is the value of
    KAFKA_BROKERS split at white space (the runes of [unicode.IsSpace])
    when the variable has a value, and [""] otherwise: the split at commas
    of line 116 only ever sees the empty string.  A value without a white
    space rune is one address, commas included. *)
Theorem brokers_resolution `{!strconv.IntParser}
    (environ : gmap string string) (platform : clowder.t) (st : package) :
  doOnce st = false ->
  clowder.IsClowderEnabled platform = false ->
  exists p st' c,
    Get environ platform st = (Ret p, st') /\ pointsTo st' p = Some c /\
    (forall v, viper.getEnv environ "KAFKA_BROKERS" = Some v ->
               kafkaConfig.Brokers (ExportConfig.KafkaConfig c) = strings.Fields v /\
               (noSpace v = true -> kafkaConfig.Brokers (ExportConfig.KafkaConfig c) = [v])) /\
    (viper.getEnv environ "KAFKA_BROKERS" = None ->
     kafkaConfig.Brokers (ExportConfig.KafkaConfig c) = [""]).
Proof.
  intros Hd Hoff. rewrite (Get_inactive environ platform st Hd Hoff).
  eexists _, _, _. split; [reflexivity |]. split; [apply pointsTo_holding |].
  cbn [environmentStage ExportConfig.KafkaConfig kafkaConfig.Brokers]. getters. split.
  - intros v Hv. rewrite Hv. cbn [cast.ToStringSlice]. split; [reflexivity |].
    intros Hs. apply Fields_noSpace; [exact Hs |].
    intros ->. unfold viper.getEnv in Hv.
    destruct (os.LookupEnv environ "KAFKA_BROKERS") as [w|]; [| discriminate].
    destruct (String.eqb_spec w ""); [discriminate |]. now injection Hv as ->.
  - intros Hv. rewrite Hv. registered.
    assert (Hget : os.Getenv environ "KAFKA_BROKERS" = "").
    { unfold viper.getEnv in Hv. unfold os.Getenv.
      destruct (os.LookupEnv environ "KAFKA_BROKERS") as [w|]; [| reflexivity].
      destruct (String.eqb_spec w ""); [now subst | discriminate]. }
    now rewrite Hget.
Qed.

Lemma brokers_resolution_witness :
  exists p st' c,
    @Get strconv.decimal sample.brokers sample.off initial = (Ret p, st') /\
    pointsTo st' p = Some c /\
    kafkaConfig.Brokers (ExportConfig.KafkaConfig c) = ["k1:9092,k2:9092"].
Proof.
  pose proof (@brokers_resolution strconv.decimal sample.brokers sample.off initial
                eq_refl eq_refl) as Hw.
  destruct Hw as (p & st' & c & Hg & Hc & Hset & _).
  exists p, st', c. split; [exact Hg |]. split; [exact Hc |].
  apply (Hset "k1:9092,k2:9092"); reflexivity.
Defined.

(** White space is that of [unicode.IsSpace], read from the UTF-8 bytes of
    the value: a no-break space (U+00A0, bytes 194 160) between two
    addresses separates them, as a space does. *)
Example brokers_split_at_no_break_space :
  exists p st' c,
    @Get strconv.decimal
      {[ "KAFKA_BROKERS" := "k1:9092" +:+ String "194" (String "160" "k2:9092 k3:9092") ]}
      sample.off initial = (Ret p, st') /\
    pointsTo st' p = Some c /\
    kafkaConfig.Brokers (ExportConfig.KafkaConfig c) = ["k1:9092"; "k2:9092"; "k3:9092"].
Proof.
  eexists _, _, _. split; [vm_compute; reflexivity |].
  split; [vm_compute; reflexivity |]. reflexivity.
Qed.
